(** * PerpTradeSim: the trend-following strategy engine and its coordinator

    A shallow embedding of [strategy.py] and of the parts of
    [trading_bot.py] that drive it.

    Numbers.  The engine is embedded twice.  In [Strategy] Python floats are
    exact rationals [Q]: rounding, infinities and NaN are left out, except
    for the one place where the source produces [float('inf')] on purpose
    (the profit factor), which gets a type of its own; equalities between
    computed amounts are stated with [==] (equality of rationals).  In [B64]
    the amounts are binary64 numbers and every operation rounds as Python's
    does; what depends on the value of a computed amount is stated there.
    A float division by zero raises [ZeroDivisionError] in Python and does
    so in both.

    Time.  A [datetime] is an integer instant; [datetime.now()] is an
    argument of the operation that reads the clock.

    Objects.  A method of [TrendFollowingStrategy] is a computation in a
    state-and-exception monad over the record of the object's fields: a
    raised exception keeps the mutations made before it, as in Python. *)

From Stdlib Require Import ZArith QArith Qabs List Bool Lia Lqa.
From Stdlib Require PrimFloat FloatOps SpecFloat.
Import ListNotations.

Local Open Scope Q_scope.

(** ** Python values *)

Module Py.

(** [l[-k:]] for an integer [k]: the last [k] elements when [k] is
    positive (all of [l] when it has fewer), and [l[j:]] with [j = -k]
    when [k] is zero or negative, so that [l[-0:]] is all of [l]. *)
Definition slice_last {A : Type} (k : Z) (l : list A) : list A :=
  if (0 <? k)%Z then skipn (length l - Z.to_nat k) l
  else skipn (Z.to_nat (- k)) l.

(** [range(a, b)] *)
Definition range (a b : nat) : list nat := seq a (b - a).

(** [all(f(i) for i in r)] *)
Definition all {A : Type} (f : A -> bool) (r : list A) : bool := forallb f r.

(** [sum(l)]: starts from 0 and adds from the left. *)
Definition sum (l : list Q) : Q := fold_left Qplus l 0.

(** [x < y] on numbers *)
Definition ltb (x y : Q) : bool := negb (Qle_bool y x).

(** [x <= y] on numbers *)
Definition leb (x y : Q) : bool := Qle_bool x y.

(** [x == y] and [x != y] on numbers *)
Definition eqb (x y : Q) : bool := Qeq_bool x y.
Definition neqb (x y : Q) : bool := negb (Qeq_bool x y).

(** [len(l)] as a number *)
Definition len {A : Type} (l : list A) : Q := inject_Z (Z.of_nat (length l)).

(** [np.mean(l)] on a non-empty list (every call in the source is guarded
    by the list being non-empty). *)
Definition mean (l : list Q) : Q := sum l / len l.

(** A float that may be [float('inf')]. *)
Inductive xfloat : Type :=
| Finite (q : Q)
| Inf.

Inductive exn : Type :=
| ZeroDivisionError.

(** What a call does: return a value or raise. *)
Inductive outcome (A : Type) : Type :=
| Returned (a : A)
| Raised (e : exn).
Arguments Returned {A} a.
Arguments Raised {A} e.

(** *** Methods

    A method is a computation on the fields of [self]: it returns or
    raises, and leaves the fields as it has mutated them either way. *)
Definition M (S A : Type) : Type := S -> outcome A * S.

Definition ret {S A : Type} (a : A) : M S A := fun self => (Returned a, self).

Definition bind {S A B : Type} (c : M S A) (k : A -> M S B) : M S B :=
  fun self =>
    match c self with
    | (Returned a, self') => k a self'
    | (Raised e, self') => (Raised e, self')
    end.

Definition raise {S A : Type} (e : exn) : M S A :=
  fun self => (Raised e, self).

(** Reading a field, or any expression over the fields. *)
Definition read {S A : Type} (f : S -> A) : M S A :=
  fun self => (Returned (f self), self).

(** Assigning a field. *)
Definition assign {S : Type} (f : S -> S) : M S unit :=
  fun self => (Returned tt, f self).

(** A method of an object held in a field, called through the field. *)
Definition on_field {S F A : Type} (get : S -> F) (set : F -> S -> S)
    (c : M F A) : M S A :=
  fun self =>
    let (r, f') := c (get self) in (r, set f' self).

(** An object other than [None] without [__bool__] or [__len__] is
    truthy, [None] is not. *)
Definition truthy {A : Type} (o : option A) : bool :=
  match o with Some _ => true | None => false end.

(** An optional float is truthy when it is neither [None] nor zero. *)
Definition truthy_float (o : option Q) : bool :=
  match o with Some x => neqb x 0 | None => false end.

Declare Scope py_scope.
Delimit Scope py_scope with py.
Notation "x <- c ;; k" := (bind c (fun x => k))
  (at level 61, c at next level, right associativity) : py_scope.
Notation "c ;; k" := (bind c (fun _ => k))
  (at level 61, right associativity) : py_scope.

End Py.

Import Py.

Inductive Side : Type := long | short.
Inductive Reason : Type := trend_reversal | liquidation | manual.
Inductive Trend : Type := bullish | bearish.
Inductive Action : Type :=
| opened_long | opened_short | closed_position | liquidated | manual_close.

Definition Side_eqb (a b : Side) : bool :=
  match a, b with
  | long, long | short, short => true
  | _, _ => false
  end.

Definition Trend_is (t : option Trend) (x : Trend) : bool :=
  match t, x with
  | Some bullish, bullish | Some bearish, bearish => true
  | _, _ => false
  end.

(** ** strategy.py *)

Module Position.

Record t : Type := Build {
  side : Side;
  entry_price : Q;
  size : Q;
  leverage : Q;
  entry_time : Z;
  liquidation_price : Q
}.

Definition calculate_pnl (self : t) (current_price : Q) : Q :=
  match side self with
  | long => (current_price - entry_price self) * size self * leverage self
  | short => (entry_price self - current_price) * size self * leverage self
  end.

Definition is_liquidated (self : t) (current_price : Q) : bool :=
  match side self with
  | long => leb current_price (liquidation_price self)
  | short => leb (liquidation_price self) current_price
  end.

End Position.

Module Trade.

Record t : Type := Build {
  side : Side;
  entry_price : Q;
  exit_price : Q;
  size : Q;
  leverage : Q;
  entry_time : Z;
  exit_time : Z;
  pnl : Q;
  reason : Reason
}.

End Trade.

Module Strategy.

(** The fields of a [TrendFollowingStrategy] object. *)
Record t : Type := Build {
  lookback_periods : Z;
  min_trend_strength : Q;
  leverage : Q;
  position_size : Q;
  trading_fee : Q;
  liquidation_threshold : Q;
  price_history : list (Z * Q);
  current_position : option Position.t;
  completed_trades : list Trade.t;
  balance : Q;
  total_fees_paid : Q
}.

Definition set_lookback_periods (v : Z) (s : t) : t :=
  Build v (min_trend_strength s) (leverage s) (position_size s)
    (trading_fee s) (liquidation_threshold s) (price_history s)
    (current_position s) (completed_trades s) (balance s) (total_fees_paid s).

Definition set_min_trend_strength (v : Q) (s : t) : t :=
  Build (lookback_periods s) v (leverage s) (position_size s)
    (trading_fee s) (liquidation_threshold s) (price_history s)
    (current_position s) (completed_trades s) (balance s) (total_fees_paid s).

Definition set_leverage (v : Q) (s : t) : t :=
  Build (lookback_periods s) (min_trend_strength s) v (position_size s)
    (trading_fee s) (liquidation_threshold s) (price_history s)
    (current_position s) (completed_trades s) (balance s) (total_fees_paid s).

Definition set_position_size (v : Q) (s : t) : t :=
  Build (lookback_periods s) (min_trend_strength s) (leverage s) v
    (trading_fee s) (liquidation_threshold s) (price_history s)
    (current_position s) (completed_trades s) (balance s) (total_fees_paid s).

Definition set_price_history (v : list (Z * Q)) (s : t) : t :=
  Build (lookback_periods s) (min_trend_strength s) (leverage s)
    (position_size s) (trading_fee s) (liquidation_threshold s) v
    (current_position s) (completed_trades s) (balance s) (total_fees_paid s).

Definition set_current_position (v : option Position.t) (s : t) : t :=
  Build (lookback_periods s) (min_trend_strength s) (leverage s)
    (position_size s) (trading_fee s) (liquidation_threshold s)
    (price_history s) v (completed_trades s) (balance s) (total_fees_paid s).

Definition set_completed_trades (v : list Trade.t) (s : t) : t :=
  Build (lookback_periods s) (min_trend_strength s) (leverage s)
    (position_size s) (trading_fee s) (liquidation_threshold s)
    (price_history s) (current_position s) v (balance s) (total_fees_paid s).

Definition set_balance (v : Q) (s : t) : t :=
  Build (lookback_periods s) (min_trend_strength s) (leverage s)
    (position_size s) (trading_fee s) (liquidation_threshold s)
    (price_history s) (current_position s) (completed_trades s) v
    (total_fees_paid s).

Definition set_total_fees_paid (v : Q) (s : t) : t :=
  Build (lookback_periods s) (min_trend_strength s) (leverage s)
    (position_size s) (trading_fee s) (liquidation_threshold s)
    (price_history s) (current_position s) (completed_trades s)
    (balance s) v.

(** *** Methods as computations on [self] *)

Definition M (A : Type) : Type := Py.M t A.

Local Open Scope py_scope.

(** [TrendFollowingStrategy(...)], with the defaults of [__init__] in
    [default]. *)
Definition init (lookback_periods : Z)
    (min_trend_strength leverage position_size trading_fee
       liquidation_threshold : Q) : t :=
  Build lookback_periods min_trend_strength leverage position_size
    trading_fee liquidation_threshold [] None [] 1000 0.

Definition default : t := init 3 (5 # 10000) 5 100 (1 # 1000) (8 # 10).

Definition add_price (timestamp : Z) (price : Q) : M unit :=
  assign (fun s => set_price_history (price_history s ++ [(timestamp, price)]) s) ;;
  n <- read (fun s => length (price_history s)) ;;
  if (1000 <? n)%nat
  then assign (fun s => set_price_history (slice_last 500 (price_history s)) s)
  else ret tt.

(** The two conditions of [detect_trend] over [recent_prices]. *)
Definition higher_highs (min_trend_strength : Q) (recent_prices : list Q) : bool :=
  all (fun i => ltb (nth (i - 1) recent_prices 0 * (1 + min_trend_strength))
                    (nth i recent_prices 0))
      (range 1 (length recent_prices)).

Definition lower_lows (min_trend_strength : Q) (recent_prices : list Q) : bool :=
  all (fun i => ltb (nth i recent_prices 0)
                    (nth (i - 1) recent_prices 0 * (1 - min_trend_strength)))
      (range 1 (length recent_prices)).

Definition recent_prices (self : t) : list Q :=
  map snd (slice_last (lookback_periods self + 1) (price_history self)).

Definition detect_trend (self : t) : option Trend :=
  if (Z.of_nat (length (price_history self)) <? lookback_periods self + 1)%Z
  then None
  else
    if higher_highs (min_trend_strength self) (recent_prices self)
    then Some bullish
    else if lower_lows (min_trend_strength self) (recent_prices self)
    then Some bearish
    else None.

Definition calculate_liquidation_price (entry_price : Q) (side : Side) : M Q :=
  lev <- read leverage ;;
  if eqb lev 0 then raise ZeroDivisionError else
  thr <- read liquidation_threshold ;;
  let liquidation_distance := entry_price / lev * thr in
  match side with
  | long => ret (entry_price - liquidation_distance)
  | short => ret (entry_price + liquidation_distance)
  end.

Definition calculate_trading_fee (self : t) (notional_value : Q) : Q :=
  notional_value * trading_fee self.

Definition open_position (side : Side) (price : Q) (timestamp : Z) : M bool :=
  self <- read id ;;
  match current_position self with
  | Some _ => ret false
  | None =>
      let notional_value := position_size self * leverage self in
      let fee := calculate_trading_fee self notional_value in
      if ltb (balance self) fee then ret false else
      assign (fun s => set_balance (balance s - fee) s) ;;
      assign (fun s => set_total_fees_paid (total_fees_paid s + fee) s) ;;
      liquidation_price <- calculate_liquidation_price price side ;;
      assign (fun s =>
        set_current_position
          (Some (Position.Build side price (position_size s) (leverage s)
                   timestamp liquidation_price)) s) ;;
      ret true
  end.

Definition close_position (price : Q) (timestamp : Z) (reason : Reason)
  : M (option Trade.t) :=
  self <- read id ;;
  match current_position self with
  | None => ret None
  | Some pos =>
      let pnl := Position.calculate_pnl pos price in
      let notional_value := Position.size pos * leverage self in
      let fee := calculate_trading_fee self notional_value in
      assign (fun s => set_balance (balance s - fee) s) ;;
      assign (fun s => set_total_fees_paid (total_fees_paid s + fee) s) ;;
      let net_pnl := pnl - fee in
      assign (fun s => set_balance (balance s + net_pnl) s) ;;
      let trade :=
        Trade.Build (Position.side pos) (Position.entry_price pos) price
          (Position.size pos) (Position.leverage pos)
          (Position.entry_time pos) timestamp net_pnl reason in
      assign (fun s => set_completed_trades (completed_trades s ++ [trade]) s) ;;
      assign (set_current_position None) ;;
      ret (Some trade)
  end.

Definition check_liquidation (price : Q) (timestamp : Z) : M (option Trade.t) :=
  self <- read id ;;
  match current_position self with
  | None => ret None
  | Some pos =>
      if Position.is_liquidated pos price
      then close_position price timestamp liquidation
      else ret None
  end.

Definition process_price_update (timestamp : Z) (price : Q)
  : M (option Action) :=
  add_price timestamp price ;;
  liq <- check_liquidation price timestamp ;;
  if truthy liq then ret (Some liquidated) else
  trend <- read detect_trend ;;
  self <- read id ;;
  match current_position self with
  | None =>
      match trend with
      | Some bullish =>
          ok <- open_position long price timestamp ;;
          if ok then ret (Some opened_long) else ret None
      | Some bearish =>
          ok <- open_position short price timestamp ;;
          if ok then ret (Some opened_short) else ret None
      | None => ret None
      end
  | Some pos =>
      let current_side := Position.side pos in
      if (Side_eqb current_side long && Trend_is trend bearish)
         || (Side_eqb current_side short && Trend_is trend bullish)
      then close_position price timestamp trend_reversal ;;
           ret (Some closed_position)
      else ret None
  end.

Definition get_current_pnl (self : t) (current_price : Q) : Q :=
  match current_position self with
  | None => 0
  | Some pos => Position.calculate_pnl pos current_price
  end.

Definition get_total_realized_pnl (self : t) : Q :=
  sum (map Trade.pnl (completed_trades self)).

Definition get_win_rate (self : t) : Q :=
  match completed_trades self with
  | [] => 0
  | _ =>
      let winning_trades :=
        length (filter (fun trade => ltb 0 (Trade.pnl trade))
                  (completed_trades self)) in
      (inject_Z (Z.of_nat winning_trades) / len (completed_trades self)) * 100
  end.

(** The dictionary returned by [get_stats]. *)
Record Stats : Type := BuildStats {
  st_total_trades : nat;
  st_realized_pnl : Q;
  st_win_rate : Q;
  st_avg_trade : Q;
  st_avg_win : Q;
  st_avg_loss : Q;
  st_profit_factor : xfloat;
  st_total_fees : Q;
  st_current_balance : Q
}.

Definition get_stats (self : t) : Stats :=
  let total_trades := length (completed_trades self) in
  let realized_pnl := get_total_realized_pnl self in
  let win_rate := get_win_rate self in
  if (0 <? total_trades)%nat then
    let avg_trade := realized_pnl / inject_Z (Z.of_nat total_trades) in
    let winning_trades :=
      filter (fun t => ltb 0 (Trade.pnl t)) (completed_trades self) in
    let losing_trades :=
      filter (fun t => ltb (Trade.pnl t) 0) (completed_trades self) in
    let avg_win :=
      match winning_trades with
      | [] => 0
      | _ => mean (map Trade.pnl winning_trades)
      end in
    let avg_loss :=
      match losing_trades with
      | [] => 0
      | _ => mean (map Trade.pnl losing_trades)
      end in
    let profit_factor :=
      if neqb avg_loss 0 then Finite (Qabs (avg_win / avg_loss)) else Inf in
    BuildStats total_trades realized_pnl win_rate avg_trade avg_win avg_loss
      profit_factor (total_fees_paid self) (balance self)
  else
    BuildStats total_trades realized_pnl win_rate 0 0 0 (Finite 0)
      (total_fees_paid self) (balance self).

End Strategy.

(** ** trading_bot.py *)

Module TradingBot.

(** An entry of [trade_log]; the four position keys are present together
    or not at all. *)
Record LogEntry : Type := BuildLogEntry {
  log_timestamp : Z;
  log_action : Action;
  log_price : Q;
  log_position : option (Side * Q * Q * Q)
    (* position_side, position_size, leverage, unrealized_pnl *)
}.

(** The fields of a [TradingBot] object the operations below use. *)
Record t : Type := Build {
  strategy : Strategy.t;
  is_running : bool;
  last_price : option Q;
  last_update : option Z;
  price_history : list (Z * Q);
  trade_log : list LogEntry;
  error_count : Z
}.

Definition set_strategy (v : Strategy.t) (b : t) : t :=
  Build v (is_running b) (last_price b) (last_update b) (price_history b)
    (trade_log b) (error_count b).

Definition set_last_price (v : option Q) (b : t) : t :=
  Build (strategy b) (is_running b) v (last_update b) (price_history b)
    (trade_log b) (error_count b).

Definition set_last_update (v : option Z) (b : t) : t :=
  Build (strategy b) (is_running b) (last_price b) v (price_history b)
    (trade_log b) (error_count b).

Definition set_price_history (v : list (Z * Q)) (b : t) : t :=
  Build (strategy b) (is_running b) (last_price b) (last_update b) v
    (trade_log b) (error_count b).

Definition set_trade_log (v : list LogEntry) (b : t) : t :=
  Build (strategy b) (is_running b) (last_price b) (last_update b)
    (price_history b) v (error_count b).

Definition set_error_count (v : Z) (b : t) : t :=
  Build (strategy b) (is_running b) (last_price b) (last_update b)
    (price_history b) (trade_log b) v.

Definition M (A : Type) : Type := Py.M t A.

Local Open Scope py_scope.

(** [self.strategy.m(...)] *)
Definition on_strategy {A : Type} (c : Strategy.M A) : M A :=
  on_field strategy set_strategy c.

(** [TradingBot(...)] *)
Definition init (lookback_periods : Z) (leverage position_size trading_fee : Q)
  : t :=
  Build (Strategy.init lookback_periods (5 # 10000) leverage position_size
           trading_fee (8 # 10))
    false None None [] [] 0.

Definition default : t := init 3 5 100 (1 # 1000).

Definition _log_trading_action (action : Action) (price : Q) (timestamp : Z)
  : M unit :=
  self <- read id ;;
  let log_entry :=
    BuildLogEntry timestamp action price
      match Strategy.current_position (strategy self) with
      | Some pos =>
          Some (Position.side pos, Position.size pos, Position.leverage pos,
                Strategy.get_current_pnl (strategy self) price)
      | None => None
      end in
  assign (fun b => set_trade_log (trade_log b ++ [log_entry]) b) ;;
  n <- read (fun b => length (trade_log b)) ;;
  if (100 <? n)%nat
  then assign (fun b => set_trade_log (slice_last 50 (trade_log b)) b)
  else ret tt.

(** [_fetch_and_process_price], given what [get_price_with_retry] returned
    and the clock. *)
Definition _fetch_and_process_price (fetched : option Q) (now : Z) : M unit :=
  match fetched with
  | None => ret tt
  | Some price =>
      let timestamp := now in
      assign (fun b => set_price_history (price_history b ++ [(timestamp, price)]) b) ;;
      n <- read (fun b => length (price_history b)) ;;
      (if (1000 <? n)%nat
       then assign (fun b => set_price_history (slice_last 500 (price_history b)) b)
       else ret tt) ;;
      action <- on_strategy (Strategy.process_price_update timestamp price) ;;
      match action with
      | Some a => _log_trading_action a price timestamp
      | None => ret tt
      end ;;
      assign (set_last_price (Some price)) ;;
      assign (set_last_update (Some timestamp)) ;;
      assign (set_error_count 0%Z)
  end.

(** [manual_close_position]; [now1] and [now2] are the two readings of the
    clock, for the trade and for the log entry. *)
Definition manual_close_position (now1 now2 : Z) : M (option Trade.t) :=
  self <- read id ;;
  if negb (truthy (Strategy.current_position (strategy self))) then ret None else
  if negb (truthy_float (last_price self)) then ret None else
  match last_price self with
  | None => ret None
  | Some price =>
      trade <- on_strategy (Strategy.close_position price now1 manual) ;;
      (if truthy trade
       then _log_trading_action manual_close price now2
       else ret tt) ;;
      ret trade
  end.

Definition update_strategy_params (leverage position_size : option Q)
    (lookback_periods : option Z) (min_trend_strength : option Q) : M unit :=
  match leverage with
  | Some v => on_strategy (assign (Strategy.set_leverage v))
  | None => ret tt
  end ;;
  match position_size with
  | Some v => on_strategy (assign (Strategy.set_position_size v))
  | None => ret tt
  end ;;
  match lookback_periods with
  | Some v => on_strategy (assign (Strategy.set_lookback_periods v))
  | None => ret tt
  end ;;
  match min_trend_strength with
  | Some v => on_strategy (assign (Strategy.set_min_trend_strength v))
  | None => ret tt
  end.

Definition reset_strategy (now1 now2 : Z) : M unit :=
  self <- read id ;;
  (if truthy (Strategy.current_position (strategy self))
   then manual_close_position now1 now2 ;; ret tt
   else ret tt) ;;
  on_strategy (assign (Strategy.set_completed_trades [])) ;;
  on_strategy (assign (Strategy.set_balance 1000)) ;;
  on_strategy (assign (Strategy.set_total_fees_paid 0)) ;;
  assign (set_trade_log []).

End TradingBot.

(** ** Vocabulary of the specification *)

Module Spec.

(** The most recent [n] elements of a window, in chronological order. *)
Definition most_recent {A : Type} (n : nat) (l : list A) : list A :=
  skipn (length l - n) l.

(** Every consecutive pair of [l] is related by [R]. *)
Fixpoint every_consecutive_pair (R : Q -> Q -> Prop) (l : list Q) : Prop :=
  match l with
  | [] => True
  | a :: tl =>
      match tl with
      | [] => True
      | b :: _ => R a b /\ every_consecutive_pair R tl
      end
  end.

(** [b] is above [a] by more than the fraction [m] of [a]. *)
Definition rises (m a b : Q) : Prop := a * (1 + m) < b.

(** [b] is below [a] by more than the fraction [m] of [a]. *)
Definition falls (m a b : Q) : Prop := b < a * (1 - m).

(** The prices of the window of [s]. *)
Definition prices (s : Strategy.t) : list Q := map snd (Strategy.price_history s).

(** The prices [detect_trend] is specified over. *)
Definition window (s : Strategy.t) : list Q :=
  most_recent (Z.to_nat (Strategy.lookback_periods s + 1)) (prices s).

(** The specification's reading of [detect_trend], with the two
    conditions taken independently of each other. *)
Definition detect_trend_as_specified (s : Strategy.t) : Prop :=
  ((Z.of_nat (length (prices s)) < Strategy.lookback_periods s + 1)%Z ->
     Strategy.detect_trend s = None) /\
  ((Strategy.lookback_periods s + 1 <= Z.of_nat (length (prices s)))%Z ->
     (Strategy.detect_trend s = Some bullish <->
        every_consecutive_pair (rises (Strategy.min_trend_strength s)) (window s)) /\
     (Strategy.detect_trend s = Some bearish <->
        every_consecutive_pair (falls (Strategy.min_trend_strength s)) (window s)) /\
     (Strategy.detect_trend s = None <->
        ~ every_consecutive_pair (rises (Strategy.min_trend_strength s)) (window s) /\
        ~ every_consecutive_pair (falls (Strategy.min_trend_strength s)) (window s))).

(** The fee of opening a position now: position_size x leverage x
    trading_fee. *)
Definition entry_fee (s : Strategy.t) : Q :=
  Strategy.position_size s * Strategy.leverage s * Strategy.trading_fee s.

(** The liquidation price of a position entered at [entry_price]:
    the distance entry_price / leverage x liquidation_threshold below the
    entry for a long, above it for a short. *)
Definition liquidation_price_at (s : Strategy.t) (entry_price : Q) (side : Side) : Q :=
  let liquidation_distance :=
    entry_price / Strategy.leverage s * Strategy.liquidation_threshold s in
  match side with
  | long => entry_price - liquidation_distance
  | short => entry_price + liquidation_distance
  end.

(** The liquidation condition of a position at a price. *)
Definition liquidation_condition (pos : Position.t) (price : Q) : Prop :=
  match Position.side pos with
  | long => price <= Position.liquidation_price pos
  | short => Position.liquidation_price pos <= price
  end.

(** The operations of the engine, and a sequence of them run from a
    state; an operation that raises leaves the state as it then is, and
    the run goes on. *)
Inductive Op : Type :=
| Tick (timestamp : Z) (price : Q)
| Open (side : Side) (price : Q) (timestamp : Z)
| Close (price : Q) (timestamp : Z) (reason : Reason)
| CheckLiquidation (price : Q) (timestamp : Z).

Definition step (s : Strategy.t) (o : Op) : Strategy.t :=
  match o with
  | Tick timestamp price => snd (Strategy.process_price_update timestamp price s)
  | Open side price timestamp => snd (Strategy.open_position side price timestamp s)
  | Close price timestamp reason => snd (Strategy.close_position price timestamp reason s)
  | CheckLiquidation price timestamp => snd (Strategy.check_liquidation price timestamp s)
  end.

Definition run (ops : list Op) (s : Strategy.t) : Strategy.t :=
  fold_left step ops s.

(** The sum of a list of amounts. *)
Definition total (l : list Q) : Q := fold_right Qplus 0 l.

(** balance = initial balance - all fees + all realized net PnL *)
Definition balance_equation (s : Strategy.t) : Prop :=
  Strategy.balance s ==
    1000 - Strategy.total_fees_paid s
    + total (map Trade.pnl (Strategy.completed_trades s)).

(** What a tick does after [add_price], on the state [s1] that it leaves. *)
Definition after_add_price (ts : Z) (price : Q) (s1 : Strategy.t)
  : outcome (option Action) * Strategy.t :=
  match Strategy.current_position s1 with
  | Some pos =>
      if Position.is_liquidated pos price
      then (Returned (Some liquidated),
            snd (Strategy.close_position price ts liquidation s1))
      else if (Side_eqb (Position.side pos) long
                 && Trend_is (Strategy.detect_trend s1) bearish)
              || (Side_eqb (Position.side pos) short
                    && Trend_is (Strategy.detect_trend s1) bullish)
      then (Returned (Some closed_position),
            snd (Strategy.close_position price ts trend_reversal s1))
      else (Returned None, s1)
  | None =>
      match Strategy.detect_trend s1 with
      | Some bullish =>
          match Strategy.open_position long price ts s1 with
          | (Returned true, s2) => (Returned (Some opened_long), s2)
          | (Returned false, s2) => (Returned None, s2)
          | (Raised e, s2) => (Raised e, s2)
          end
      | Some bearish =>
          match Strategy.open_position short price ts s1 with
          | (Returned true, s2) => (Returned (Some opened_short), s2)
          | (Returned false, s2) => (Returned None, s2)
          | (Raised e, s2) => (Raised e, s2)
          end
      | None => (Returned None, s1)
      end
  end.

(** The tag of an open on a side, the trend that signals it, and the
    trend that opposes a position on it. *)
Definition opened (side : Side) : Action :=
  match side with long => opened_long | short => opened_short end.

Definition entry_signal (side : Side) : Trend :=
  match side with long => bullish | short => bearish end.

Definition reversal (side : Side) : Trend :=
  match side with long => bearish | short => bullish end.

(** What a tick may do to the state [s1] that [add_price] leaves: one
    close by liquidation, or one open, or one close on a reversal, or
    nothing; never two of them. *)
Inductive one_action (ts : Z) (price : Q) (s1 : Strategy.t)
  : outcome (option Action) -> Strategy.t -> Prop :=
| tick_liquidated (pos : Position.t) :
    Strategy.current_position s1 = Some pos ->
    liquidation_condition pos price ->
    one_action ts price s1 (Returned (Some liquidated))
      (snd (Strategy.close_position price ts liquidation s1))
| tick_opened (side : Side) (s2 : Strategy.t) :
    Strategy.current_position s1 = None ->
    Strategy.detect_trend s1 = Some (entry_signal side) ->
    Strategy.open_position side price ts s1 = (Returned true, s2) ->
    one_action ts price s1 (Returned (Some (opened side))) s2
| tick_open_raised (side : Side) (e : exn) (s2 : Strategy.t) :
    Strategy.current_position s1 = None ->
    Strategy.detect_trend s1 = Some (entry_signal side) ->
    Strategy.open_position side price ts s1 = (Raised e, s2) ->
    one_action ts price s1 (Raised e) s2
| tick_closed (pos : Position.t) :
    Strategy.current_position s1 = Some pos ->
    ~ liquidation_condition pos price ->
    Strategy.detect_trend s1 = Some (reversal (Position.side pos)) ->
    one_action ts price s1 (Returned (Some closed_position))
      (snd (Strategy.close_position price ts trend_reversal s1))
| tick_nothing :
    one_action ts price s1 (Returned None) s1.

(** The fee an engine call charges: what it adds to the cumulative fees. *)
Definition fee_charged (before after : Strategy.t) : Q :=
  Strategy.total_fees_paid after - Strategy.total_fees_paid before.








(** Prices fed to the coordinator one after the other, at instants
    [t], [t + 1], ... *)
Fixpoint feed (t : Z) (prices : list Q) (b : TradingBot.t) : TradingBot.t :=
  match prices with
  | [] => b
  | p :: rest =>
      feed (t + 1) rest (snd (TradingBot._fetch_and_process_price (Some p) t b))
  end.

(** The shape of the two tests of [detect_trend]: a test [P] of every
    element against the one before it, by index. *)
Definition by_index (P : Q -> Q -> bool) (r : list Q) : bool :=
  all (fun i => P (nth (i - 1) r 0) (nth i r 0)) (range 1 (length r)).

(** A strategy object with a given window of prices, sampled at instants
    0, 1, 2, ... *)
Definition with_prices (s : Strategy.t) (ps : list Q) : Strategy.t :=
  Strategy.set_price_history
    (combine (map Z.of_nat (seq 0 (length ps))) ps) s.

End Spec.

Import Spec.

(** ** trading_bot.py, continued: the views, the loop, and the manual open
    of app.py *)

Module Coordinator.

Import TradingBot.
Local Open Scope py_scope.

Definition set_is_running (v : bool) (b : t) : t :=
  Build (strategy b) v (last_price b) (last_update b) (price_history b)
    (trade_log b) (error_count b).

(** [self.max_errors]: set to 10 by [__init__] and assigned nowhere else. *)
Definition max_errors : Z := 10.

(** An optional integer is truthy when it is neither [None] nor zero. *)
Definition truthy_int (o : option Z) : bool :=
  match o with Some n => negb (n =? 0)%Z | None => false end.

(** The body shared by [get_price_history(limit)] and
    [get_trade_log(limit)]: [l[-limit:]] when [limit] is truthy, a copy of
    [l] otherwise. *)
Definition most_recent_entries {A : Type} (limit : option Z) (l : list A) : list A :=
  if truthy_int limit
  then match limit with Some n => slice_last n l | None => l end
  else l.

Definition get_price_history (limit : option Z) (self : t) : list (Z * Q) :=
  most_recent_entries limit (price_history self).

Definition get_trade_log (limit : option Z) (self : t) : list LogEntry :=
  most_recent_entries limit (trade_log self).

Definition get_completed_trades (self : t) : list Trade.t :=
  Strategy.completed_trades (strategy self).

Definition get_strategy_stats (self : t) : Strategy.Stats :=
  Strategy.get_stats (strategy self).

(** What can be raised inside the loop: what [_fetch_and_process_price]
    raised, or the [ValueError] of [time.sleep]. *)
Inductive loop_exn : Type :=
| TickRaised (e : exn)
| ValueError.

(** [time.sleep(secs)] raises [ValueError] for a negative length and
    returns otherwise, when the time has passed. *)
Definition sleep (secs : Z) : option loop_exn :=
  if (secs <? 0)%Z then Some ValueError else None.

(** How one pass of the body of the loop ends: back at the [while] test,
    at the [break], or with an exception that leaves the loop. *)
Inductive pass : Type :=
| Continue
| Break
| Escapes (e : loop_exn).

(** One pass of the body of [_price_update_loop], given
    [self.update_interval] (assigned by [__init__] only), what the feed
    returned and the clock.  The [try] block is the fetch followed by
    [time.sleep(self.update_interval)]; [except Exception] catches what
    either raises, counts it, and at [max_errors] stops the bot and breaks;
    below it the handler itself calls
    [time.sleep(min(self.update_interval, 60))], outside of any [try]. *)
Definition _price_update_loop_body (update_interval : Z)
    (fetched : option Q) (now : Z) (self : t) : pass * t :=
  let attempt : option loop_exn * t :=
    match _fetch_and_process_price fetched now self with
    | (Returned _, self1) => (sleep update_interval, self1)
    | (Raised e, self1) => (Some (TickRaised e), self1)
    end in
  match attempt with
  | (None, self1) => (Continue, self1)
  | (Some _, self1) =>
      let self2 := set_error_count (error_count self1 + 1)%Z self1 in
      if (max_errors <=? error_count self2)%Z
      then (Break, set_is_running false self2)
      else
        match sleep (Z.min update_interval 60) with
        | None => (Continue, self2)
        | Some e => (Escapes e, self2)
        end
  end.

(** [_price_update_loop] over the inputs of its successive passes:
    [while self.is_running].  The result is the exception that has left
    the loop, if one has. *)
Fixpoint _price_update_loop (update_interval : Z)
    (inputs : list (option Q * Z)) (self : t) : option loop_exn * t :=
  match inputs with
  | [] => (None, self)
  | (fetched, now) :: rest =>
      if is_running self
      then
        match _price_update_loop_body update_interval fetched now self with
        | (Continue, self1) => _price_update_loop update_interval rest self1
        | (Break, self1) => (None, self1)
        | (Escapes e, self1) => (Some e, self1)
        end
      else (None, self)
  end.

(** The "Open Long" and "Open Short" buttons of [app.py]: shown when no
    position is open and [last_price is not None], they call
    [strategy.open_position(side, last_price, now)]. *)
Definition manual_open_position (side : Side) (now : Z) : M bool :=
  self <- read id ;;
  match Strategy.current_position (strategy self), last_price self with
  | None, Some price => on_strategy (Strategy.open_position side price now)
  | _, _ => ret false
  end.

(** What the presentation layer and the loop do to the coordinator. *)
Inductive Op : Type :=
| Fetch (fetched : option Q) (now : Z)
| ManualOpen (side : Side) (now : Z)
| ManualClose (now1 now2 : Z)
| UpdateParams (leverage position_size : option Q)
    (lookback_periods : option Z) (min_trend_strength : option Q)
| Reset (now1 now2 : Z).

Definition step (b : t) (o : Op) : t :=
  match o with
  | Fetch fetched now => snd (_fetch_and_process_price fetched now b)
  | ManualOpen side now => snd (manual_open_position side now b)
  | ManualClose now1 now2 => snd (manual_close_position now1 now2 b)
  | UpdateParams lev ps lb m => snd (update_strategy_params lev ps lb m b)
  | Reset now1 now2 => snd (reset_strategy now1 now2 b)
  end.

Definition run (ops : list Op) (b : t) : t := fold_left step ops b.

(** The engine's window and the coordinator's price history hold the same
    samples. *)
Definition in_step (b : t) : Prop :=
  price_history b = Strategy.price_history (strategy b).

(** The buffers are within their caps. *)
Definition within_caps (b : t) : Prop :=
  (length (price_history b) <= 1000)%nat /\
  (length (Strategy.price_history (strategy b)) <= 1000)%nat /\
  (length (trade_log b) <= 100)%nat.


(** The entry [_log_trading_action] writes. *)
Definition log_entry (a : Action) (price : Q) (ts : Z) (b : t) : LogEntry :=
  BuildLogEntry ts a price
    match Strategy.current_position (strategy b) with
    | Some pos =>
        Some (Position.side pos, Position.size pos, Position.leverage pos,
              Strategy.get_current_pnl (strategy b) price)
    | None => None
    end.

End Coordinator.

(** ** jupiter_api.py: the retry loop *)

Module JupiterAPI.

Local Open Scope py_scope.

(** The client as the retry loop sees it: how many times
    [get_sol_usdc_price] has been called, and for how many seconds the
    client has slept.  The call itself goes to the network: [answer k] is
    what its call number [k] returns, a price or [None]. *)
Record t : Type := Build {
  calls : nat;
  slept : Z
}.

Definition M (A : Type) : Type := Py.M t A.


(** [time.sleep(seconds)] *)
Definition sleep (seconds : Z) : M unit :=
  assign (fun self => Build (calls self) (slept self + seconds)%Z).




End JupiterAPI.

(** ** Further vocabulary *)

Module More.

(** The window with one more sample and no trimming. *)
Definition appended (ts : Z) (price : Q) (s : Strategy.t) : Strategy.t :=
  Strategy.set_price_history (Strategy.price_history s ++ [(ts, price)]) s.

(** The gross PnL of a position at a price, side by side. *)
Definition gross_pnl (pos : Position.t) (price : Q) : Q :=
  match Position.side pos with
  | long => (price - Position.entry_price pos)
  | short => (Position.entry_price pos - price)
  end * Position.size pos * Position.leverage pos.


(** [l2] is [l1] with [n] entries at most added at its end. *)
Definition extends_by {A : Type} (n : nat) (l1 l2 : list A) : Prop :=
  exists added, l2 = l1 ++ added /\ (length added <= n)%nat.

(** The tag of an action is one of the four a tick reports. *)
Definition closing_reason (a : Action) : option Reason :=
  match a with
  | liquidated => Some liquidation
  | closed_position => Some trend_reversal
  | manual_close => Some manual
  | opened_long | opened_short => None
  end.

End More.

Import More.

(** ** strategy.py in binary64

    The engine once more, with the amounts as the source has them: Python
    floats, that is binary64 numbers, every operation rounding to nearest.
    The control flow is that of [Strategy] line by line; [Strategy] is this
    engine with the rounding taken away. *)

Module B64.

Import PrimFloat.
Local Open Scope py_scope.
Set Warnings "-inexact-float".

Module Position.

Record t : Type := Build {
  side : Side;
  entry_price : float;
  size : float;
  leverage : float;
  entry_time : Z;
  liquidation_price : float
}.

Definition calculate_pnl (self : t) (current_price : float) : float :=
  match side self with
  | long => ((current_price - entry_price self) * size self * leverage self)%float
  | short => ((entry_price self - current_price) * size self * leverage self)%float
  end.

Definition is_liquidated (self : t) (current_price : float) : bool :=
  match side self with
  | long => (current_price <=? liquidation_price self)%float
  | short => (liquidation_price self <=? current_price)%float
  end.

End Position.

Module Trade.

Record t : Type := Build {
  side : Side;
  entry_price : float;
  exit_price : float;
  size : float;
  leverage : float;
  entry_time : Z;
  exit_time : Z;
  pnl : float;
  reason : Reason
}.

End Trade.

Record t : Type := Build {
  lookback_periods : Z;
  min_trend_strength : float;
  leverage : float;
  position_size : float;
  trading_fee : float;
  liquidation_threshold : float;
  price_history : list (Z * float);
  current_position : option Position.t;
  completed_trades : list Trade.t;
  balance : float;
  total_fees_paid : float
}.

Definition set_leverage (v : float) (s : t) : t :=
  Build (lookback_periods s) (min_trend_strength s) v (position_size s)
    (trading_fee s) (liquidation_threshold s) (price_history s)
    (current_position s) (completed_trades s) (balance s) (total_fees_paid s).

Definition set_lookback_periods (v : Z) (s : t) : t :=
  Build v (min_trend_strength s) (leverage s) (position_size s)
    (trading_fee s) (liquidation_threshold s) (price_history s)
    (current_position s) (completed_trades s) (balance s) (total_fees_paid s).

Definition set_min_trend_strength (v : float) (s : t) : t :=
  Build (lookback_periods s) v (leverage s) (position_size s)
    (trading_fee s) (liquidation_threshold s) (price_history s)
    (current_position s) (completed_trades s) (balance s) (total_fees_paid s).

Definition set_position_size (v : float) (s : t) : t :=
  Build (lookback_periods s) (min_trend_strength s) (leverage s) v
    (trading_fee s) (liquidation_threshold s) (price_history s)
    (current_position s) (completed_trades s) (balance s) (total_fees_paid s).

Definition set_trading_fee (v : float) (s : t) : t :=
  Build (lookback_periods s) (min_trend_strength s) (leverage s)
    (position_size s) v (liquidation_threshold s) (price_history s)
    (current_position s) (completed_trades s) (balance s) (total_fees_paid s).

Definition set_price_history (v : list (Z * float)) (s : t) : t :=
  Build (lookback_periods s) (min_trend_strength s) (leverage s)
    (position_size s) (trading_fee s) (liquidation_threshold s) v
    (current_position s) (completed_trades s) (balance s) (total_fees_paid s).

Definition set_current_position (v : option Position.t) (s : t) : t :=
  Build (lookback_periods s) (min_trend_strength s) (leverage s)
    (position_size s) (trading_fee s) (liquidation_threshold s)
    (price_history s) v (completed_trades s) (balance s) (total_fees_paid s).

Definition set_completed_trades (v : list Trade.t) (s : t) : t :=
  Build (lookback_periods s) (min_trend_strength s) (leverage s)
    (position_size s) (trading_fee s) (liquidation_threshold s)
    (price_history s) (current_position s) v (balance s) (total_fees_paid s).

Definition set_balance (v : float) (s : t) : t :=
  Build (lookback_periods s) (min_trend_strength s) (leverage s)
    (position_size s) (trading_fee s) (liquidation_threshold s)
    (price_history s) (current_position s) (completed_trades s) v
    (total_fees_paid s).

Definition set_total_fees_paid (v : float) (s : t) : t :=
  Build (lookback_periods s) (min_trend_strength s) (leverage s)
    (position_size s) (trading_fee s) (liquidation_threshold s)
    (price_history s) (current_position s) (completed_trades s)
    (balance s) v.

Definition M (A : Type) : Type := Py.M t A.

(** [TrendFollowingStrategy(...)], and its defaults. *)
Definition init (lookback_periods : Z)
    (min_trend_strength leverage position_size trading_fee
       liquidation_threshold : float) : t :=
  Build lookback_periods min_trend_strength leverage position_size
    trading_fee liquidation_threshold [] None [] 1000%float 0%float.

Definition default : t :=
  init 3 0.0005%float 5%float 100%float 0.001%float 0.8%float.

Definition add_price (timestamp : Z) (price : float) : M unit :=
  assign (fun s => set_price_history (price_history s ++ [(timestamp, price)]) s) ;;
  n <- read (fun s => length (price_history s)) ;;
  if (1000 <? n)%nat
  then assign (fun s => set_price_history (slice_last 500 (price_history s)) s)
  else ret tt.

Definition higher_highs (min_trend_strength : float) (recent_prices : list float)
  : bool :=
  all (fun i => (nth (i - 1) recent_prices 0 * (1 + min_trend_strength)
                 <? nth i recent_prices 0)%float)
      (range 1 (length recent_prices)).

Definition lower_lows (min_trend_strength : float) (recent_prices : list float)
  : bool :=
  all (fun i => (nth i recent_prices 0
                 <? nth (i - 1) recent_prices 0 * (1 - min_trend_strength))%float)
      (range 1 (length recent_prices)).

Definition recent_prices (self : t) : list float :=
  map snd (slice_last (lookback_periods self + 1) (price_history self)).

Definition detect_trend (self : t) : option Trend :=
  if (Z.of_nat (length (price_history self)) <? lookback_periods self + 1)%Z
  then None
  else
    if higher_highs (min_trend_strength self) (recent_prices self)
    then Some bullish
    else if lower_lows (min_trend_strength self) (recent_prices self)
    then Some bearish
    else None.

(** [entry_price / self.leverage] raises when the leverage is [0.0] or
    [-0.0]. *)
Definition calculate_liquidation_price (entry_price : float) (side : Side)
  : M float :=
  lev <- read leverage ;;
  if (lev =? 0)%float then raise ZeroDivisionError else
  thr <- read liquidation_threshold ;;
  let liquidation_distance := (entry_price / lev * thr)%float in
  match side with
  | long => ret (entry_price - liquidation_distance)%float
  | short => ret (entry_price + liquidation_distance)%float
  end.

Definition calculate_trading_fee (self : t) (notional_value : float) : float :=
  (notional_value * trading_fee self)%float.

Definition open_position (side : Side) (price : float) (timestamp : Z) : M bool :=
  self <- read id ;;
  match current_position self with
  | Some _ => ret false
  | None =>
      let notional_value := (position_size self * leverage self)%float in
      let fee := calculate_trading_fee self notional_value in
      if (balance self <? fee)%float then ret false else
      assign (fun s => set_balance (balance s - fee)%float s) ;;
      assign (fun s => set_total_fees_paid (total_fees_paid s + fee)%float s) ;;
      liquidation_price <- calculate_liquidation_price price side ;;
      assign (fun s =>
        set_current_position
          (Some (Position.Build side price (position_size s) (leverage s)
                   timestamp liquidation_price)) s) ;;
      ret true
  end.

Definition close_position (price : float) (timestamp : Z) (reason : Reason)
  : M (option Trade.t) :=
  self <- read id ;;
  match current_position self with
  | None => ret None
  | Some pos =>
      let pnl := Position.calculate_pnl pos price in
      let notional_value := (Position.size pos * leverage self)%float in
      let fee := calculate_trading_fee self notional_value in
      assign (fun s => set_balance (balance s - fee)%float s) ;;
      assign (fun s => set_total_fees_paid (total_fees_paid s + fee)%float s) ;;
      let net_pnl := (pnl - fee)%float in
      assign (fun s => set_balance (balance s + net_pnl)%float s) ;;
      let trade :=
        Trade.Build (Position.side pos) (Position.entry_price pos) price
          (Position.size pos) (Position.leverage pos)
          (Position.entry_time pos) timestamp net_pnl reason in
      assign (fun s => set_completed_trades (completed_trades s ++ [trade]) s) ;;
      assign (set_current_position None) ;;
      ret (Some trade)
  end.

Definition check_liquidation (price : float) (timestamp : Z)
  : M (option Trade.t) :=
  self <- read id ;;
  match current_position self with
  | None => ret None
  | Some pos =>
      if Position.is_liquidated pos price
      then close_position price timestamp liquidation
      else ret None
  end.

Definition process_price_update (timestamp : Z) (price : float)
  : M (option Action) :=
  add_price timestamp price ;;
  liq <- check_liquidation price timestamp ;;
  if truthy liq then ret (Some liquidated) else
  trend <- read detect_trend ;;
  self <- read id ;;
  match current_position self with
  | None =>
      match trend with
      | Some bullish =>
          ok <- open_position long price timestamp ;;
          if ok then ret (Some opened_long) else ret None
      | Some bearish =>
          ok <- open_position short price timestamp ;;
          if ok then ret (Some opened_short) else ret None
      | None => ret None
      end
  | Some pos =>
      let current_side := Position.side pos in
      if (Side_eqb current_side long && Trend_is trend bearish)
         || (Side_eqb current_side short && Trend_is trend bullish)
      then close_position price timestamp trend_reversal ;;
           ret (Some closed_position)
      else ret None
  end.

(** [sum(trade.pnl for trade in self.completed_trades)]: from 0, adding
    from the left.  (CPython 3.12 and later compensate the additions of
    [sum]; for a ledger of one or two trades, the only ones this function
    is evaluated on below, the result is the same.) *)
Definition get_total_realized_pnl (self : t) : float :=
  fold_left PrimFloat.add (map Trade.pnl (completed_trades self)) 0%float.

(** [TradingBot.update_strategy_params], as it acts on the engine: it
    assigns the parameters that are given and touches nothing else, of the
    engine or of the coordinator. *)
Definition update_strategy_params (leverage position_size : option float)
    (lookback_periods : option Z) (min_trend_strength : option float) : M unit :=
  match leverage with
  | Some v => assign (set_leverage v)
  | None => ret tt
  end ;;
  match position_size with
  | Some v => assign (set_position_size v)
  | None => ret tt
  end ;;
  match lookback_periods with
  | Some v => assign (set_lookback_periods v)
  | None => ret tt
  end ;;
  match min_trend_strength with
  | Some v => assign (set_min_trend_strength v)
  | None => ret tt
  end.

(** *** Vocabulary for the binary64 engine *)

(** The operations of the engine and their runs, as in [Spec]. *)
Inductive Op : Type :=
| Tick (timestamp : Z) (price : float)
| Open (side : Side) (price : float) (timestamp : Z)
| Close (price : float) (timestamp : Z) (reason : Reason)
| CheckLiquidation (price : float) (timestamp : Z).

Definition step (s : t) (o : Op) : t :=
  match o with
  | Tick timestamp price => snd (process_price_update timestamp price s)
  | Open side price timestamp => snd (open_position side price timestamp s)
  | Close price timestamp reason => snd (close_position price timestamp reason s)
  | CheckLiquidation price timestamp => snd (check_liquidation price timestamp s)
  end.

Definition run (ops : list Op) (s : t) : t := fold_left step ops s.

(** Ticks at instants 0, 1, 2, ... *)
Definition ticks (prices : list float) : list Op :=
  map (fun ip => Tick (Z.of_nat (fst ip)) (snd ip))
      (combine (seq 0 (length prices)) prices).

(** An engine with a given window of prices, sampled at instants 0, 1, ... *)
Definition with_prices (s : t) (ps : list float) : t :=
  set_price_history (combine (map Z.of_nat (seq 0 (length ps))) ps) s.

(** The rational a binary64 number stands for (0 for infinities and NaN,
    which no statement below meets). *)
Definition exact (x : float) : Q :=
  match FloatOps.Prim2SF x with
  | SpecFloat.S754_finite sign m e =>
      let v := inject_Z (Zpos m) * Qpower 2 e in
      if sign then - v else v
  | _ => 0
  end.

(** The sum of the exact values of a list of floats. *)
Definition exact_total (l : list float) : Q :=
  fold_right Qplus 0 (map exact l).

(** The prices [detect_trend] is specified over. *)
Definition window (s : t) : list float :=
  most_recent (Z.to_nat (lookback_periods s + 1)) (map snd (price_history s)).

(** Every consecutive pair of [l] is related by [R]. *)
Fixpoint every_consecutive_pair (R : float -> float -> Prop) (l : list float)
  : Prop :=
  match l with
  | [] => True
  | a :: tl =>
      match tl with
      | [] => True
      | b :: _ => R a b /\ every_consecutive_pair R tl
      end
  end.

(** [b > a * (1 + m)] and [b < a * (1 - m)] as the code evaluates them: the
    sum, the difference and the product are rounded, the comparison is
    exact. *)
Definition rises (m a b : float) : Prop := (a * (1 + m) <? b)%float = true.
Definition falls (m a b : float) : Prop := (b <? a * (1 - m))%float = true.

(** The test of every element against the one before it, by index. *)
Definition by_index (P : float -> float -> bool) (r : list float) : bool :=
  all (fun i => P (nth (i - 1) r 0%float) (nth i r 0%float)) (range 1 (length r)).

(** The fee of opening a position now, and the liquidation price of a
    position entered at [entry_price], as the code computes them. *)
Definition entry_fee (s : t) : float :=
  (position_size s * leverage s * trading_fee s)%float.

Definition liquidation_price_at (s : t) (entry_price : float) (side : Side)
  : float :=
  match side with
  | long => (entry_price - entry_price / leverage s * liquidation_threshold s)%float
  | short => (entry_price + entry_price / leverage s * liquidation_threshold s)%float
  end.

(** What a tick does after [add_price], on the state [s1] that it leaves. *)
Definition after_add_price (ts : Z) (price : float) (s1 : t)
  : outcome (option Action) * t :=
  match current_position s1 with
  | Some pos =>
      if Position.is_liquidated pos price
      then (Returned (Some liquidated),
            snd (close_position price ts liquidation s1))
      else if (Side_eqb (Position.side pos) long
                 && Trend_is (detect_trend s1) bearish)
              || (Side_eqb (Position.side pos) short
                    && Trend_is (detect_trend s1) bullish)
      then (Returned (Some closed_position),
            snd (close_position price ts trend_reversal s1))
      else (Returned None, s1)
  | None =>
      match detect_trend s1 with
      | Some bullish =>
          match open_position long price ts s1 with
          | (Returned true, s2) => (Returned (Some opened_long), s2)
          | (Returned false, s2) => (Returned None, s2)
          | (Raised e, s2) => (Raised e, s2)
          end
      | Some bearish =>
          match open_position short price ts s1 with
          | (Returned true, s2) => (Returned (Some opened_short), s2)
          | (Returned false, s2) => (Returned None, s2)
          | (Raised e, s2) => (Raised e, s2)
          end
      | None => (Returned None, s1)
      end
  end.

(** What an operation may do to the money.  Nothing: the position, the
    balance, the cumulative fees and the ledger are what they were. *)
Definition money_unmoved (s s' : t) : Prop :=
  current_position s' = current_position s /\
  balance s' = balance s /\
  total_fees_paid s' = total_fees_paid s /\
  completed_trades s' = completed_trades s.

(** An entry: no position was open, the entry fee has been subtracted from
    the balance and added to the cumulative fees, the ledger is what it
    was; no position is open afterwards only if the leverage is zero (the
    open has then raised). *)
Definition entry_charged (s s' : t) : Prop :=
  current_position s = None /\
  completed_trades s' = completed_trades s /\
  balance s' = (balance s - entry_fee s)%float /\
  total_fees_paid s' = (total_fees_paid s + entry_fee s)%float /\
  (current_position s' = None -> (leverage s =? 0)%float = true).

(** An exit: a position was open and none is now; the exit fee has been
    subtracted from the balance and added to the cumulative fees; one trade
    has been appended to the ledger, its [pnl] the gross PnL minus that fee,
    and that [pnl] has then been added to the balance. *)
Definition trade_booked (s s' : t) : Prop :=
  exists (pos : Position.t) (trade : Trade.t),
    current_position s = Some pos /\
    current_position s' = None /\
    completed_trades s' = completed_trades s ++ [trade] /\
    let fee := (Position.size pos * leverage s * trading_fee s)%float in
    Trade.pnl trade
    = (Position.calculate_pnl pos (Trade.exit_price trade) - fee)%float /\
    balance s' = (balance s - fee + Trade.pnl trade)%float /\
    total_fees_paid s' = (total_fees_paid s + fee)%float.

End B64.

(** Reduction of the field accessors over the field setters. *)

Ltac fields :=
  cbn [Strategy.lookback_periods Strategy.min_trend_strength Strategy.leverage
       Strategy.position_size Strategy.trading_fee Strategy.liquidation_threshold
       Strategy.price_history Strategy.current_position Strategy.completed_trades
       Strategy.balance Strategy.total_fees_paid
       Strategy.set_price_history Strategy.set_current_position
       Strategy.set_completed_trades Strategy.set_balance
       Strategy.set_total_fees_paid Strategy.set_leverage
       Strategy.set_position_size Strategy.set_lookback_periods
       Strategy.set_min_trend_strength fst snd] in *.

Ltac bot_fields :=
  cbn [TradingBot.strategy TradingBot.is_running TradingBot.last_price
       TradingBot.last_update TradingBot.price_history TradingBot.trade_log
       TradingBot.error_count TradingBot.set_strategy TradingBot.set_last_price
       TradingBot.set_last_update TradingBot.set_price_history
       TradingBot.set_trade_log TradingBot.set_error_count fst snd] in *.

Ltac b64_fields :=
  cbn [B64.lookback_periods B64.min_trend_strength B64.leverage
       B64.position_size B64.trading_fee B64.liquidation_threshold
       B64.price_history B64.current_position B64.completed_trades
       B64.balance B64.total_fees_paid
       B64.set_price_history B64.set_current_position
       B64.set_completed_trades B64.set_balance
       B64.set_total_fees_paid B64.set_leverage
       B64.set_position_size B64.set_lookback_periods
       B64.set_min_trend_strength B64.set_trading_fee fst snd] in *.

(** * Properties *)

(** ** Comparisons and sums *)

Lemma ltb_lt (x y : Q) : ltb x y = true <-> x < y.
Proof.
  unfold ltb. rewrite negb_true_iff, <- not_true_iff_false, Qle_bool_iff.
  split; [apply Qnot_le_lt | apply Qlt_not_le].
Qed.

Lemma leb_le (x y : Q) : leb x y = true <-> x <= y.
Proof. apply Qle_bool_iff. Qed.

Lemma eqb_eq (x y : Q) : eqb x y = true <-> x == y.
Proof. apply Qeq_bool_iff. Qed.

Lemma neqb_neq (x y : Q) : neqb x y = true <-> ~ x == y.
Proof.
  unfold neqb. rewrite negb_true_iff, <- not_true_iff_false, Qeq_bool_iff.
  tauto.
Qed.

(** ** detect_trend *)

Section Trend.

Variable P : Q -> Q -> bool.

Lemma forallb_seq_shift (f : nat -> bool) (a n : nat) :
  forallb f (seq (S a) n) = forallb (fun i => f (S i)) (seq a n).
Proof.
  rewrite <- seq_shift. induction (seq a n) as [|x xs IH]; simpl; congruence.
Qed.

Lemma forallb_seq_ext (f g : nat -> bool) (a n : nat) :
  (forall i, (a <= i)%nat -> f i = g i) ->
  forallb f (seq a n) = forallb g (seq a n).
Proof.
  revert a. induction n as [|n IH]; intros a H; simpl; [reflexivity|].
  rewrite H by lia. f_equal. apply IH. intros i Hi. apply H. lia.
Qed.

Lemma by_index_cons2 (a b : Q) (tl : list Q) :
  by_index P (a :: b :: tl) = P a b && by_index P (b :: tl).
Proof.
  unfold by_index, all, range. simpl length.
  replace (S (S (length tl)) - 1)%nat with (S (length tl)) by lia.
  replace (S (length tl) - 1)%nat with (length tl) by lia.
  cbn [seq forallb]. f_equal.
  rewrite forallb_seq_shift. apply forallb_seq_ext.
  intros i Hi. destruct i as [|i]; [lia|].
  replace (S (S i) - 1)%nat with (S (S i - 1)) by lia. reflexivity.
Qed.

Lemma by_index_pairs (R : Q -> Q -> Prop) :
  (forall a b, P a b = true <-> R a b) ->
  forall r, by_index P r = true <-> every_consecutive_pair R r.
Proof.
  intros HR r. induction r as [|a tl IH].
  - simpl. unfold by_index. simpl. tauto.
  - destruct tl as [|b tl].
    + unfold by_index. simpl. tauto.
    + rewrite by_index_cons2, andb_true_iff, HR, IH. simpl. tauto.
Qed.

End Trend.

Lemma higher_highs_spec (m : Q) (r : list Q) :
  Strategy.higher_highs m r = true <-> every_consecutive_pair (rises m) r.
Proof.
  change (Strategy.higher_highs m r)
    with (by_index (fun a b => ltb (a * (1 + m)) b) r).
  apply by_index_pairs. intros a b. apply ltb_lt.
Qed.

Lemma lower_lows_spec (m : Q) (r : list Q) :
  Strategy.lower_lows m r = true <-> every_consecutive_pair (falls m) r.
Proof.
  change (Strategy.lower_lows m r)
    with (by_index (fun a b => ltb b (a * (1 - m))) r).
  apply by_index_pairs. intros a b. apply ltb_lt.
Qed.

Lemma recent_prices_window (s : Strategy.t) :
  (0 <= Strategy.lookback_periods s)%Z ->
  Strategy.recent_prices s = window s.
Proof.
  intros H. unfold Strategy.recent_prices, window, prices, most_recent, slice_last.
  destruct (Z.ltb_spec 0 (Strategy.lookback_periods s + 1)); [|lia].
  rewrite skipn_map, length_map. reflexivity.
Qed.

(** C9.  With [lookback_periods = 0] and a non-empty window, [detect_trend]
    returns bullish whatever the prices are: the slice holds one price, both
    [higher_highs] and [lower_lows] range over no pair and are true, and
    the bullish branch comes first. *)
Theorem detect_trend_lookback_zero (s : Strategy.t) :
  Strategy.lookback_periods s = 0%Z ->
  Strategy.price_history s <> [] ->
  length (Strategy.recent_prices s) = 1%nat /\
  Strategy.higher_highs (Strategy.min_trend_strength s) (Strategy.recent_prices s) = true /\
  Strategy.lower_lows (Strategy.min_trend_strength s) (Strategy.recent_prices s) = true /\
  Strategy.detect_trend s = Some bullish.
Proof.
  intros Hl Hne.
  assert (Hlen : (1 <= length (Strategy.price_history s))%nat).
  { destruct (Strategy.price_history s); [congruence | simpl; lia]. }
  assert (H1 : length (Strategy.recent_prices s) = 1%nat).
  { unfold Strategy.recent_prices, slice_last. rewrite Hl. simpl.
    rewrite length_map, length_skipn. change (Pos.to_nat 1) with 1%nat. lia. }
  assert (Hh : forall m, Strategy.higher_highs m (Strategy.recent_prices s) = true).
  { intros m. unfold Strategy.higher_highs. rewrite H1. reflexivity. }
  assert (Hw : forall m, Strategy.lower_lows m (Strategy.recent_prices s) = true).
  { intros m. unfold Strategy.lower_lows. rewrite H1. reflexivity. }
  repeat split; auto.
  unfold Strategy.detect_trend. rewrite Hl, Hh.
  destruct (Z.ltb_spec (Z.of_nat (length (Strategy.price_history s))) (0 + 1));
    [lia | reflexivity].
Qed.

Lemma detect_trend_lookback_zero_witness :
  Strategy.detect_trend
    (with_prices (Strategy.set_lookback_periods 0 Strategy.default) [100 ; 99])
  = Some bullish.
Proof.
  apply (detect_trend_lookback_zero
           (with_prices (Strategy.set_lookback_periods 0 Strategy.default) [100 ; 99])).
  - reflexivity.
  - discriminate.
Defined.

(** With [lookback_periods = 0] every pair of the one-price window falls
    (there is none), and the result is bullish all the same: the
    specification's reading, which makes bearish equivalent to all pairs
    falling, fails there. *)
Lemma detect_trend_as_specified_fails :
  ~ detect_trend_as_specified
      (with_prices (Strategy.set_lookback_periods 0 Strategy.default) [100]).
Proof.
  intros [_ H]. destruct H as (_ & [_ Hb] & _).
  - vm_compute. discriminate.
  - assert (E : Strategy.detect_trend
                  (with_prices (Strategy.set_lookback_periods 0 Strategy.default) [100])
                = Some bearish) by (apply Hb; exact I).
    vm_compute in E. discriminate.
Qed.

Lemma In_skipn_In {A : Type} (n : nat) (l : list A) (x : A) :
  In x (skipn n l) -> In x l.
Proof.
  intros H. rewrite <- (firstn_skipn n l). apply in_or_app. right. exact H.
Qed.

(** With at least two prices, a strength that is not negative and no
    negative price, the two conditions exclude each other. *)
Lemma rises_falls_exclusive (m : Q) (r : list Q) :
  0 <= m -> Forall (fun p => 0 <= p) r -> (2 <= length r)%nat ->
  every_consecutive_pair (rises m) r ->
  every_consecutive_pair (falls m) r -> False.
Proof.
  intros Hm Hr Hlen Hup Hdown.
  destruct r as [|a [|b tl]]; simpl in Hlen; try lia.
  destruct Hup as [Hup _]. destruct Hdown as [Hdown _].
  inversion Hr as [|? ? Ha _]; subst.
  unfold rises, falls in *.
  assert (0 <= a * m) by (apply Qmult_le_0_compat; assumption).
  lra.
Qed.

(** ** The mutators, case by case *)

Lemma open_position_eq (side : Side) (price : Q) (ts : Z) (s : Strategy.t) :
  Strategy.open_position side price ts s =
  match Strategy.current_position s with
  | Some _ => (Returned false, s)
  | None =>
      if ltb (Strategy.balance s) (entry_fee s) then (Returned false, s)
      else
        let s1 :=
          Strategy.set_total_fees_paid (Strategy.total_fees_paid s + entry_fee s)
            (Strategy.set_balance (Strategy.balance s - entry_fee s) s) in
        if eqb (Strategy.leverage s) 0 then (Raised ZeroDivisionError, s1)
        else
          (Returned true,
           Strategy.set_current_position
             (Some (Position.Build side price (Strategy.position_size s)
                      (Strategy.leverage s) ts (liquidation_price_at s price side)))
             s1)
  end.
Proof.
  unfold Strategy.open_position, Strategy.calculate_liquidation_price,
    Strategy.calculate_trading_fee, entry_fee, liquidation_price_at,
    bind, read, assign, ret, raise, id.
  destruct (Strategy.current_position s); [reflexivity|].
  destruct (ltb _ _); [reflexivity|]. cbn.
  destruct (eqb _ _); [reflexivity|].
  destruct side; reflexivity.
Qed.

(** The trade a close of [pos] writes, and the fee it charges. *)
Lemma close_position_eq (price : Q) (ts : Z) (reason : Reason) (s : Strategy.t) :
  Strategy.close_position price ts reason s =
  match Strategy.current_position s with
  | None => (Returned None, s)
  | Some pos =>
      let fee := Position.size pos * Strategy.leverage s * Strategy.trading_fee s in
      let net_pnl := Position.calculate_pnl pos price - fee in
      let trade :=
        Trade.Build (Position.side pos) (Position.entry_price pos) price
          (Position.size pos) (Position.leverage pos) (Position.entry_time pos)
          ts net_pnl reason in
      (Returned (Some trade),
       Strategy.Build (Strategy.lookback_periods s) (Strategy.min_trend_strength s)
         (Strategy.leverage s) (Strategy.position_size s) (Strategy.trading_fee s)
         (Strategy.liquidation_threshold s) (Strategy.price_history s) None
         (Strategy.completed_trades s ++ [trade])
         (Strategy.balance s - fee + net_pnl)
         (Strategy.total_fees_paid s + fee))
  end.
Proof.
  unfold Strategy.close_position, Strategy.calculate_trading_fee,
    bind, read, assign, ret, id.
  destruct (Strategy.current_position s); reflexivity.
Qed.

Lemma check_liquidation_eq (price : Q) (ts : Z) (s : Strategy.t) :
  Strategy.check_liquidation price ts s =
  match Strategy.current_position s with
  | None => (Returned None, s)
  | Some pos =>
      if Position.is_liquidated pos price
      then Strategy.close_position price ts liquidation s
      else (Returned None, s)
  end.
Proof.
  unfold Strategy.check_liquidation, bind, read, ret, id.
  destruct (Strategy.current_position s) as [pos|]; [|reflexivity].
  destruct (Position.is_liquidated pos price); reflexivity.
Qed.

Lemma is_liquidated_spec (pos : Position.t) (price : Q) :
  Position.is_liquidated pos price = true <-> liquidation_condition pos price.
Proof.
  unfold Position.is_liquidated, liquidation_condition.
  destruct (Position.side pos); apply leb_le.
Qed.

Lemma close_position_some (price : Q) (ts : Z) (reason : Reason)
    (s : Strategy.t) (pos : Position.t) :
  Strategy.current_position s = Some pos ->
  exists trade s',
    Strategy.close_position price ts reason s = (Returned (Some trade), s') /\
    Trade.reason trade = reason /\
    Trade.exit_price trade = price /\
    Strategy.current_position s' = None /\
    Strategy.completed_trades s' = Strategy.completed_trades s ++ [trade].
Proof.
  intros Hp. rewrite close_position_eq, Hp. cbv zeta.
  eexists. eexists. split; [reflexivity|]. cbn. auto.
Qed.

(** ** open_position *)

(** With a fee rate of zero an open succeeds and takes nothing from the
    balance: the balance does not strictly decrease on every successful
    open. *)
Lemma open_position_zero_fee_keeps_balance :
  exists s',
    Strategy.open_position long 100 0 (Strategy.init 3 (5 # 10000) 5 100 0 (8 # 10))
    = (Returned true, s') /\
    ~ Strategy.balance s' < Strategy.balance (Strategy.init 3 (5 # 10000) 5 100 0 (8 # 10)).
Proof.
  eexists. split; [vm_compute; reflexivity|]. vm_compute. discriminate.
Qed.

(** ** check_liquidation *)

(** C4.  [check_liquidation(price, timestamp)] on an open position closes
    it with reason liquidation and returns the trade exactly when the
    liquidation condition holds (long: price <= liquidation price; short:
    price >= liquidation price); otherwise, and when no position is open,
    it returns none and changes nothing.  A long position with liquidation
    price 84 is closed at 83.99 and not at 84.01. *)
Theorem check_liquidation_spec :
  (forall (price : Q) (ts : Z) (s : Strategy.t),
     match Strategy.current_position s with
     | None => Strategy.check_liquidation price ts s = (Returned None, s)
     | Some pos =>
         (liquidation_condition pos price ->
          exists trade s',
            Strategy.check_liquidation price ts s = (Returned (Some trade), s') /\
            Strategy.close_position price ts liquidation s = (Returned (Some trade), s') /\
            Trade.reason trade = liquidation /\
            Trade.exit_price trade = price /\
            Strategy.current_position s' = None /\
            Strategy.completed_trades s' = Strategy.completed_trades s ++ [trade]) /\
         (~ liquidation_condition pos price ->
          Strategy.check_liquidation price ts s = (Returned None, s))
     end) /\
  (let s := snd (Strategy.open_position long 100 0 Strategy.default) in
   (exists pos, Strategy.current_position s = Some pos /\
                Position.side pos = long /\ Position.liquidation_price pos == 84) /\
   (exists trade s',
      Strategy.check_liquidation (8399 # 100) 1 s = (Returned (Some trade), s') /\
      Trade.reason trade = liquidation /\
      Strategy.current_position s' = None /\
      Strategy.completed_trades s' = [trade]) /\
   Strategy.check_liquidation (8401 # 100) 1 s = (Returned None, s)).
Proof.
  split.
  - intros price ts s. rewrite check_liquidation_eq.
    destruct (Strategy.current_position s) as [pos|] eqn:Hp; [|reflexivity].
    split.
    + intros Hc. apply is_liquidated_spec in Hc. rewrite Hc.
      destruct (close_position_some price ts liquidation s pos Hp)
        as (trade & s' & Hcl & Hr & Hx & Hn & Hl).
      exists trade, s'. auto 10.
    + intros Hc. rewrite <- is_liquidated_spec in Hc.
      destruct (Position.is_liquidated pos price); [congruence | reflexivity].
  - cbv zeta. split; [|split].
    + eexists. split; [vm_compute; reflexivity|]. split; reflexivity.
    + eexists. eexists. split; [vm_compute; reflexivity|].
      repeat split; reflexivity.
    + vm_compute. reflexivity.
Qed.

Lemma check_liquidation_spec_witness :
  exists trade s',
    Strategy.check_liquidation 120 5
      (snd (Strategy.open_position short 100 0 Strategy.default))
    = (Returned (Some trade), s') /\
    Trade.reason trade = liquidation.
Proof.
  pose proof (proj1 check_liquidation_spec 120 5%Z
                (snd (Strategy.open_position short 100 0 Strategy.default))) as H.
  cbn in H. destruct H as [H _].
  destruct H as (trade & s' & H1 & _ & H2 & _).
  - vm_compute. discriminate.
  - exists trade, s'. split; assumption.
Defined.

(** ** Failure *)

Lemma open_position_false_same (side : Side) (price : Q) (ts : Z)
    (s s' : Strategy.t) :
  Strategy.open_position side price ts s = (Returned false, s') -> s' = s.
Proof.
  intros H. rewrite open_position_eq in H.
  destruct (Strategy.current_position s); [congruence|].
  destruct (ltb _ _); [congruence|]. cbv zeta in H.
  destruct (eqb _ _); discriminate.
Qed.

(** The one raise of the engine: [open_position] divides by a leverage of
    zero, after it has charged a fee that is then zero; nothing else of the
    state has moved. *)
Lemma open_position_raised (side : Side) (price : Q) (ts : Z)
    (s s' : Strategy.t) (e : exn) :
  Strategy.open_position side price ts s = (Raised e, s') ->
  Strategy.leverage s == 0 /\
  Strategy.current_position s' = None /\
  Strategy.completed_trades s' = Strategy.completed_trades s /\
  Strategy.balance s' == Strategy.balance s /\
  Strategy.total_fees_paid s' == Strategy.total_fees_paid s.
Proof.
  intros H. rewrite open_position_eq in H.
  destruct (Strategy.current_position s) eqn:Hp; [discriminate|].
  destruct (ltb _ _); [discriminate|]. cbv zeta in H.
  destruct (eqb (Strategy.leverage s) 0) eqn:Hz; [|discriminate].
  apply eqb_eq in Hz. injection H as _ <-. fields.
  assert (Hf : entry_fee s == 0) by (unfold entry_fee; rewrite Hz; ring).
  repeat split; auto; rewrite Hf; ring.
Qed.

(** ** A tick, case by case *)

Lemma add_price_eq (ts : Z) (price : Q) (s : Strategy.t) :
  Strategy.add_price ts price s =
  (Returned tt,
   Strategy.set_price_history
     (let ph := Strategy.price_history s ++ [(ts, price)] in
      if (1000 <? length ph)%nat then slice_last 500 ph else ph) s).
Proof.
  unfold Strategy.add_price, bind, read, assign, ret.
  cbv beta iota zeta delta [Strategy.price_history Strategy.set_price_history].
  destruct (Nat.ltb _ _); reflexivity.
Qed.

Lemma process_price_update_eq (ts : Z) (price : Q) (s : Strategy.t) :
  Strategy.process_price_update ts price s =
  after_add_price ts price (snd (Strategy.add_price ts price s)).
Proof.
  unfold Strategy.process_price_update.
  unfold bind at 1. rewrite add_price_eq. cbn [snd].
  set (s1 := Strategy.set_price_history _ s).
  unfold bind at 1. rewrite check_liquidation_eq. unfold after_add_price.
  destruct (Strategy.current_position s1) as [pos|] eqn:Hp.
  - destruct (Position.is_liquidated pos price) eqn:Hl.
    + rewrite close_position_eq, Hp. reflexivity.
    + cbn [truthy]. unfold bind, read, ret, id. rewrite Hp.
      destruct (_ || _); [|reflexivity].
      rewrite close_position_eq, Hp. reflexivity.
  - cbn [truthy]. unfold bind, read, ret, id. rewrite Hp.
    destruct (Strategy.detect_trend s1) as [[|]|]; [| |reflexivity].
    + destruct (Strategy.open_position long price ts s1) as [[[|]|e] s2];
        reflexivity.
    + destruct (Strategy.open_position short price ts s1) as [[[|]|e] s2];
        reflexivity.
Qed.

(** ** The balance equation

    With exact amounts every operation keeps balance = 1000 - fees + the sum
    of the [pnl] of the ledger.  The binary64 engine does not keep it; what
    it does keep is stated in the last part. *)

Lemma total_app (l : list Q) (x : Q) : total (l ++ [x]) == total l + x.
Proof.
  induction l as [|a l IH]; simpl.
  - ring.
  - rewrite IH. ring.
Qed.



Lemma balance_equation_add_price (ts : Z) (price : Q) (s : Strategy.t) :
  balance_equation s -> balance_equation (snd (Strategy.add_price ts price s)).
Proof. rewrite add_price_eq. unfold balance_equation. fields. auto. Qed.

Lemma balance_equation_open (side : Side) (price : Q) (ts : Z) (s : Strategy.t) :
  balance_equation s ->
  balance_equation (snd (Strategy.open_position side price ts s)).
Proof.
  intros H. rewrite open_position_eq.
  destruct (Strategy.current_position s); [exact H|].
  destruct (ltb _ _); [exact H|]. cbv zeta.
  unfold balance_equation in *.
  destruct (eqb _ _); fields; rewrite H; ring.
Qed.

Lemma balance_equation_close (price : Q) (ts : Z) (reason : Reason) (s : Strategy.t) :
  balance_equation s ->
  balance_equation (snd (Strategy.close_position price ts reason s)).
Proof.
  intros H. rewrite close_position_eq.
  destruct (Strategy.current_position s) as [pos|]; [|exact H]. cbv zeta.
  unfold balance_equation in *. fields.
  rewrite map_app. cbn [map Trade.pnl]. rewrite total_app, H. ring.
Qed.

Lemma balance_equation_check (price : Q) (ts : Z) (s : Strategy.t) :
  balance_equation s ->
  balance_equation (snd (Strategy.check_liquidation price ts s)).
Proof.
  intros H. rewrite check_liquidation_eq.
  destruct (Strategy.current_position s) as [pos|]; [|exact H].
  destruct (Position.is_liquidated pos price); [|exact H].
  apply balance_equation_close, H.
Qed.

Lemma balance_equation_after_add_price (ts : Z) (price : Q) (s1 : Strategy.t) :
  balance_equation s1 -> balance_equation (snd (after_add_price ts price s1)).
Proof.
  intros H. unfold after_add_price.
  destruct (Strategy.current_position s1) as [pos|].
  - destruct (Position.is_liquidated pos price).
    + apply balance_equation_close, H.
    + destruct (_ || _); [apply balance_equation_close, H | exact H].
  - destruct (Strategy.detect_trend s1) as [[|]|]; [| |exact H].
    + pose proof (balance_equation_open long price ts s1 H) as Ho.
      destruct (Strategy.open_position long price ts s1) as [[[|]|e] s2];
        exact Ho.
    + pose proof (balance_equation_open short price ts s1 H) as Ho.
      destruct (Strategy.open_position short price ts s1) as [[[|]|e] s2];
        exact Ho.
Qed.

Lemma balance_equation_step (s : Strategy.t) (o : Op) :
  balance_equation s -> balance_equation (step s o).
Proof.
  intros H. destruct o; unfold step.
  - rewrite process_price_update_eq.
    apply balance_equation_after_add_price, balance_equation_add_price, H.
  - apply balance_equation_open, H.
  - apply balance_equation_close, H.
  - apply balance_equation_check, H.
Qed.

Lemma balance_equation_run (ops : list Op) (s : Strategy.t) :
  balance_equation s -> balance_equation (run ops s).
Proof.
  revert s. induction ops as [|o ops IH]; intros s H; [exact H|].
  apply IH, balance_equation_step, H.
Qed.

Lemma balance_equation_init (lb : Z) (m lev ps tf thr : Q) :
  balance_equation (Strategy.init lb m lev ps tf thr).
Proof. unfold balance_equation. cbn. ring. Qed.

(** ** One action per tick *)

Lemma after_add_price_one_action (ts : Z) (price : Q) (s1 : Strategy.t) :
  one_action ts price s1 (fst (after_add_price ts price s1))
    (snd (after_add_price ts price s1)).
Proof.
  unfold after_add_price.
  destruct (Strategy.current_position s1) as [pos|] eqn:Hp.
  - destruct (Position.is_liquidated pos price) eqn:Hl.
    + apply (tick_liquidated ts price s1 pos Hp). apply is_liquidated_spec, Hl.
    + assert (Hn : ~ liquidation_condition pos price).
      { rewrite <- is_liquidated_spec. congruence. }
      destruct (Position.side pos) eqn:Hs, (Strategy.detect_trend s1) as [[|]|] eqn:Ht;
        cbn; try apply tick_nothing;
        apply (tick_closed ts price s1 pos Hp Hn); rewrite Hs; exact Ht.
  - destruct (Strategy.detect_trend s1) as [[|]|] eqn:Ht; [| |apply tick_nothing].
    + destruct (Strategy.open_position long price ts s1) as [[[|]|e] s2] eqn:Ho; cbn.
      * apply (tick_opened ts price s1 long s2 Hp Ht Ho).
      * rewrite (open_position_false_same long price ts s1 s2 Ho).
        apply tick_nothing.
      * apply (tick_open_raised ts price s1 long e s2 Hp Ht Ho).
    + destruct (Strategy.open_position short price ts s1) as [[[|]|e] s2] eqn:Ho; cbn.
      * apply (tick_opened ts price s1 short s2 Hp Ht Ho).
      * rewrite (open_position_false_same short price ts s1 s2 Ho).
        apply tick_nothing.
      * apply (tick_open_raised ts price s1 short e s2 Hp Ht Ho).
Qed.

(** C6.  A tick performs at most one action on the state [add_price]
    leaves: a liquidation close, tagged [liquidated], with no trend or
    open/close logic after it; or else, according to whether a position is
    open after the liquidation check, one open attempt or one close on a
    reversal, never both.  A tick that reports an open found no position,
    leaves the position it opened open, and adds no trade to the ledger. *)
Theorem process_price_update_one_action (ts : Z) (price : Q) (s : Strategy.t) :
  let s1 := snd (Strategy.add_price ts price s) in
  let r := fst (Strategy.process_price_update ts price s) in
  let s' := snd (Strategy.process_price_update ts price s) in
  Strategy.current_position s1 = Strategy.current_position s /\
  Strategy.completed_trades s1 = Strategy.completed_trades s /\
  one_action ts price s1 r s' /\
  (forall trade s2,
     Strategy.check_liquidation price ts s1 = (Returned (Some trade), s2) ->
     r = Returned (Some liquidated) /\ s' = s2) /\
  (forall side, r = Returned (Some (opened side)) ->
     Strategy.current_position s = None /\
     Strategy.current_position s' =
       Some (Position.Build side price (Strategy.position_size s)
               (Strategy.leverage s) ts (liquidation_price_at s price side)) /\
     Strategy.completed_trades s' = Strategy.completed_trades s).
Proof.
  cbv zeta. rewrite process_price_update_eq.
  split; [rewrite add_price_eq; reflexivity|].
  split; [rewrite add_price_eq; reflexivity|].
  split; [apply after_add_price_one_action|].
  split.
  - intros trade s2 H. rewrite check_liquidation_eq in H. unfold after_add_price.
    destruct (Strategy.current_position _) as [pos|]; [|discriminate].
    destruct (Position.is_liquidated pos price); [|discriminate].
    rewrite H. auto.
  - intros side H. rewrite add_price_eq in *. cbn [snd] in *.
    set (s1 := Strategy.set_price_history _ s) in *.
    unfold after_add_price in *.
    change (Strategy.current_position s) with (Strategy.current_position s1).
    destruct (Strategy.current_position s1) as [pos|] eqn:Hp.
    + destruct (Position.is_liquidated pos price);
        [destruct side; discriminate|].
      destruct (_ || _); destruct side; discriminate.
    + split; [reflexivity|].
      destruct (Strategy.detect_trend s1) as [[|]|];
        [| |destruct side; discriminate].
      * rewrite open_position_eq, Hp in *.
        destruct (ltb _ _); [destruct side; discriminate|]. cbv zeta in *.
        destruct (eqb _ _); destruct side; try discriminate.
        cbn. split; reflexivity.
      * rewrite open_position_eq, Hp in *.
        destruct (ltb _ _); [destruct side; discriminate|]. cbv zeta in *.
        destruct (eqb _ _); destruct side; try discriminate.
        cbn. split; reflexivity.
Qed.

Lemma process_price_update_one_action_witness :
  let s := with_prices Strategy.default [100; 101; 102] in
  Strategy.current_position (snd (Strategy.process_price_update 3 103 s)) =
    Some (Position.Build long 103 100 5 3 (liquidation_price_at s 103 long)) /\
  Strategy.completed_trades (snd (Strategy.process_price_update 3 103 s)) = [].
Proof.
  cbv zeta.
  apply (proj2 (proj2 (proj2 (proj2 (process_price_update_one_action 3 103
           (with_prices Strategy.default [100; 101; 102]))))) long).
  vm_compute. reflexivity.
Defined.

(** ** The fee of a close *)

Lemma update_strategy_params_strategy
    (lev ps : option Q) (lb : option Z) (m : option Q) (b : TradingBot.t) :
  TradingBot.update_strategy_params lev ps lb m b =
  (Returned tt,
   TradingBot.set_strategy
     (let s0 := TradingBot.strategy b in
      let s1 := match lev with Some v => Strategy.set_leverage v s0 | None => s0 end in
      let s2 := match ps with Some v => Strategy.set_position_size v s1 | None => s1 end in
      let s3 := match lb with Some v => Strategy.set_lookback_periods v s2 | None => s2 end in
      match m with Some v => Strategy.set_min_trend_strength v s3 | None => s3 end)
     b).
Proof.
  destruct b as [s run lp lu ph tl ec].
  destruct lev, ps, lb, m; reflexivity.
Qed.

(** With a fee rate of zero the entry fee and the exit fee are both zero,
    whatever the leverage has become in between. *)
Lemma exit_fee_equals_entry_fee_at_zero_rate :
  let b0 := TradingBot.init 3 5 100 0 in
  let b1 := snd (TradingBot.on_strategy (Strategy.open_position long 100 0) b0) in
  let b2 := snd (TradingBot.update_strategy_params (Some 10) None None None b1) in
  let b3 := snd (TradingBot.on_strategy (Strategy.close_position 110 1 trend_reversal) b2) in
  fst (TradingBot.on_strategy (Strategy.open_position long 100 0) b0) = Returned true /\
  Strategy.current_position (TradingBot.strategy b2) <> None /\
  ~ Strategy.leverage (TradingBot.strategy b2) == Strategy.leverage (TradingBot.strategy b1) /\
  Strategy.current_position (TradingBot.strategy b3) = None /\
  fee_charged (TradingBot.strategy b2) (TradingBot.strategy b3)
    == fee_charged (TradingBot.strategy b0) (TradingBot.strategy b1).
Proof.
  cbv zeta. split; [reflexivity|]. split; [vm_compute; discriminate|].
  split; [vm_compute; discriminate|]. split; reflexivity.
Qed.

(** ** Statistics *)










(** ** Reset *)

Lemma log_trading_action_eq (a : Action) (price : Q) (ts : Z) (b : TradingBot.t) :
  exists log,
    TradingBot._log_trading_action a price ts b
    = (Returned tt, TradingBot.set_trade_log log b).
Proof.
  unfold TradingBot._log_trading_action, bind, read, assign, ret, id.
  bot_fields.
  destruct (Nat.ltb _ _); eexists; destruct b; reflexivity.
Qed.

Lemma manual_close_position_eq (now1 now2 : Z) (b : TradingBot.t) :
  match Strategy.current_position (TradingBot.strategy b) with
  | None => TradingBot.manual_close_position now1 now2 b = (Returned None, b)
  | Some pos =>
      if truthy_float (TradingBot.last_price b)
      then
        exists price trade s' log,
          TradingBot.last_price b = Some price /\
          Strategy.close_position price now1 manual (TradingBot.strategy b)
          = (Returned (Some trade), s') /\
          TradingBot.manual_close_position now1 now2 b
          = (Returned (Some trade),
             TradingBot.set_trade_log log (TradingBot.set_strategy s' b))
      else TradingBot.manual_close_position now1 now2 b = (Returned None, b)
  end.
Proof.
  destruct (Strategy.current_position (TradingBot.strategy b)) as [pos|] eqn:Hp.
  - destruct (TradingBot.last_price b) as [price|] eqn:Hl.
    + cbn [truthy_float]. destruct (neqb price 0) eqn:Hz.
      * destruct (close_position_some price now1 manual _ pos Hp)
          as (trade & s' & Hc & _).
        destruct (log_trading_action_eq manual_close price now2
                    (TradingBot.set_strategy s' b)) as [log Hlog].
        exists price, trade, s', log. split; [reflexivity|]. split; [exact Hc|].
        unfold TradingBot.manual_close_position, bind, read, id, ret.
        rewrite Hp, Hl. cbn [truthy negb truthy_float]. rewrite Hz. cbn [negb].
        unfold TradingBot.on_strategy, on_field. rewrite Hc. cbn [truthy].
        rewrite Hlog. reflexivity.
      * unfold TradingBot.manual_close_position, bind, read, id, ret.
        rewrite Hp, Hl. cbn [truthy negb truthy_float]. rewrite Hz. reflexivity.
    + unfold TradingBot.manual_close_position, bind, read, id, ret.
      rewrite Hp, Hl. reflexivity.
  - unfold TradingBot.manual_close_position, bind, read, id, ret.
    rewrite Hp. reflexivity.
Qed.

Lemma manual_close_position_returns (now1 now2 : Z) (b : TradingBot.t) :
  exists r, fst (TradingBot.manual_close_position now1 now2 b) = Returned r.
Proof.
  pose proof (manual_close_position_eq now1 now2 b) as Hm.
  destruct (Strategy.current_position (TradingBot.strategy b));
    [destruct (truthy_float _)|].
  - destruct Hm as (price & trade & s' & log & _ & _ & ->). eexists. reflexivity.
  - rewrite Hm. eexists. reflexivity.
  - rewrite Hm. eexists. reflexivity.
Qed.

Lemma reset_strategy_unfold (now1 now2 : Z) (b : TradingBot.t) :
  TradingBot.reset_strategy now1 now2 b =
  let b1 :=
    if truthy (Strategy.current_position (TradingBot.strategy b))
    then snd (TradingBot.manual_close_position now1 now2 b) else b in
  (Returned tt,
   TradingBot.set_trade_log []
     (TradingBot.set_strategy
        (Strategy.set_total_fees_paid 0
           (Strategy.set_balance 1000
              (Strategy.set_completed_trades [] (TradingBot.strategy b1))))
        b1)).
Proof.
  unfold TradingBot.reset_strategy, bind, read, id.
  destruct (manual_close_position_returns now1 now2 b) as [r Hr].
  destruct (truthy (Strategy.current_position (TradingBot.strategy b))).
  - destruct (TradingBot.manual_close_position now1 now2 b) as [o b1].
    cbn [fst] in Hr. subst o. cbn [snd].
    unfold TradingBot.on_strategy, on_field, assign, ret.
    destruct b1. reflexivity.
  - unfold TradingBot.on_strategy, on_field, assign, ret.
    destruct b. reflexivity.
Qed.

(** What [reset_strategy] always does, and what it does to the position:
    with a last price that is neither [None] nor zero no position is left;
    without one the position, if any, stays. *)
Lemma reset_strategy_eq (now1 now2 : Z) (b : TradingBot.t) :
  let b' := snd (TradingBot.reset_strategy now1 now2 b) in
  fst (TradingBot.reset_strategy now1 now2 b) = Returned tt /\
  Strategy.completed_trades (TradingBot.strategy b') = [] /\
  Strategy.balance (TradingBot.strategy b') = 1000 /\
  Strategy.total_fees_paid (TradingBot.strategy b') = 0 /\
  TradingBot.trade_log b' = [] /\
  Strategy.current_position (TradingBot.strategy b') =
    (if truthy_float (TradingBot.last_price b) then None
     else Strategy.current_position (TradingBot.strategy b)).
Proof.
  cbv zeta. rewrite reset_strategy_unfold. cbv zeta. bot_fields. fields.
  repeat split.
  pose proof (manual_close_position_eq now1 now2 b) as Hm.
  destruct (Strategy.current_position (TradingBot.strategy b)) as [pos|] eqn:Hp.
  - cbn [truthy]. destruct (truthy_float (TradingBot.last_price b)).
    + destruct Hm as (price & trade & s' & log & _ & Hc & ->).
      rewrite close_position_eq, Hp in Hc. cbv zeta in Hc.
      injection Hc as _ <-. reflexivity.
    + rewrite Hm. exact Hp.
  - cbn [truthy]. rewrite Hp. destruct (truthy_float _); reflexivity.
Qed.

(** With a last price that is neither [None] nor zero, a reset closes the
    open position first, by one manual close at that price that adds one
    trade to the ledger, and leaves no position. *)
Lemma reset_strategy_with_price (now1 now2 : Z) (b : TradingBot.t)
    (pos : Position.t) (price : Q) :
  Strategy.current_position (TradingBot.strategy b) = Some pos ->
  TradingBot.last_price b = Some price ->
  ~ price == 0 ->
  (exists trade b1,
     TradingBot.manual_close_position now1 now2 b = (Returned (Some trade), b1) /\
     Trade.reason trade = manual /\
     Trade.exit_price trade = price /\
     Strategy.completed_trades (TradingBot.strategy b1)
     = Strategy.completed_trades (TradingBot.strategy b) ++ [trade]) /\
  Strategy.current_position
    (TradingBot.strategy (snd (TradingBot.reset_strategy now1 now2 b))) = None.
Proof.
  intros Hp Hl Hz.
  assert (Ht : truthy_float (TradingBot.last_price b) = true).
  { rewrite Hl. cbn. apply neqb_neq, Hz. }
  split.
  - pose proof (manual_close_position_eq now1 now2 b) as Hm.
    rewrite Hp, Ht in Hm.
    destruct Hm as (price' & trade & s' & log & Hl' & Hc & Hm).
    rewrite Hl in Hl'. injection Hl' as <-.
    exists trade, (TradingBot.set_trade_log log (TradingBot.set_strategy s' b)).
    split; [exact Hm|].
    rewrite close_position_eq, Hp in Hc. cbv zeta in Hc.
    injection Hc as <- <-. bot_fields. fields. cbn. auto.
  - destruct (reset_strategy_eq now1 now2 b) as (_ & _ & _ & _ & _ & H).
    rewrite H, Ht. reflexivity.
Qed.

(** C8, at a state the coordinator reaches by itself.  The feed delivers
    4, 3, 2, 1 and then 0: the fourth tick opens a short at 1, the fifth
    leaves it open and makes 0 the last known price.  [reset_strategy] then
    calls [manual_close_position], which takes the price 0 for no price and
    returns none: the ledger is cleared and the balance and fees restored,
    but no trade is produced and the short position is still open after the
    reset. *)
Theorem reset_strategy_leaves_position_open :
  let b := feed 0 [4; 3; 2; 1; 0] TradingBot.default in
  let b' := snd (TradingBot.reset_strategy 5 6 b) in
  TradingBot.last_price b = Some 0 /\
  (exists pos,
     Strategy.current_position (TradingBot.strategy b) = Some pos /\
     Position.side pos = short /\
     Strategy.current_position (TradingBot.strategy b') = Some pos) /\
  TradingBot.manual_close_position 5 6 b = (Returned None, b) /\
  Strategy.completed_trades (TradingBot.strategy b') = [] /\
  Strategy.balance (TradingBot.strategy b') = 1000 /\
  Strategy.total_fees_paid (TradingBot.strategy b') = 0 /\
  TradingBot.trade_log b' = [].
Proof.
  cbv zeta. split; [vm_compute; reflexivity|].
  split.
  - eexists. split; [vm_compute; reflexivity|]. split; vm_compute; reflexivity.
  - split; [vm_compute; reflexivity|].
    split; [vm_compute; reflexivity|].
    split; [vm_compute; reflexivity|].
    split; vm_compute; reflexivity.
Qed.

(** * Further properties of the engine *)

(** ** The price window *)

Lemma slice_last_pos {A : Type} (k : Z) (l : list A) :
  (0 < k)%Z -> slice_last k l = skipn (length l - Z.to_nat k) l.
Proof.
  intros H. unfold slice_last.
  destruct (Z.ltb_spec 0 k); [reflexivity | lia].
Qed.

Lemma slice_last_length {A : Type} (k : Z) (l : list A) :
  (0 < k)%Z -> length (slice_last k l) = Nat.min (Z.to_nat k) (length l).
Proof.
  intros H. rewrite slice_last_pos by assumption. rewrite length_skipn. lia.
Qed.

Lemma slice_last_keeps_last {A : Type} (k : Z) (l : list A) (x : A) :
  (0 < k)%Z -> exists front, slice_last k (l ++ [x]) = front ++ [x].
Proof.
  intros H. rewrite slice_last_pos by assumption.
  rewrite length_app. cbn [length].
  rewrite skipn_app.
  replace (length l + 1 - Z.to_nat k - length l)%nat with 0%nat by lia.
  cbn [skipn]. eexists. reflexivity.
Qed.

Lemma open_position_window (side : Side) (price : Q) (ts : Z) (s : Strategy.t) :
  Strategy.price_history (snd (Strategy.open_position side price ts s))
  = Strategy.price_history s.
Proof.
  rewrite open_position_eq.
  destruct (Strategy.current_position s); [reflexivity|].
  destruct (ltb _ _); [reflexivity|]. cbv zeta.
  destruct (eqb _ _); reflexivity.
Qed.

Lemma close_position_window (price : Q) (ts : Z) (reason : Reason) (s : Strategy.t) :
  Strategy.price_history (snd (Strategy.close_position price ts reason s))
  = Strategy.price_history s.
Proof.
  rewrite close_position_eq.
  destruct (Strategy.current_position s); reflexivity.
Qed.

Lemma check_liquidation_window (price : Q) (ts : Z) (s : Strategy.t) :
  Strategy.price_history (snd (Strategy.check_liquidation price ts s))
  = Strategy.price_history s.
Proof.
  rewrite check_liquidation_eq.
  destruct (Strategy.current_position s) as [pos|]; [|reflexivity].
  destruct (Position.is_liquidated pos price); [|reflexivity].
  apply close_position_window.
Qed.

Lemma after_add_price_window (ts : Z) (price : Q) (s1 : Strategy.t) :
  Strategy.price_history (snd (after_add_price ts price s1))
  = Strategy.price_history s1.
Proof.
  unfold after_add_price.
  destruct (Strategy.current_position s1) as [pos|].
  - destruct (Position.is_liquidated pos price);
      [apply close_position_window|].
    destruct (_ || _); [apply close_position_window | reflexivity].
  - destruct (Strategy.detect_trend s1) as [[|]|]; [| |reflexivity].
    + pose proof (open_position_window long price ts s1) as H.
      destruct (Strategy.open_position long price ts s1) as [[[|]|e] s2]; exact H.
    + pose proof (open_position_window short price ts s1) as H.
      destruct (Strategy.open_position short price ts s1) as [[[|]|e] s2]; exact H.
Qed.

Lemma add_price_window (ts : Z) (price : Q) (s : Strategy.t) :
  (length (Strategy.price_history s) <= 1000)%nat ->
  let w := Strategy.price_history (snd (Strategy.add_price ts price s)) in
  (exists front, w = front ++ [(ts, price)]) /\
  (length w <= 1000)%nat /\
  ((length (Strategy.price_history s) < 1000)%nat ->
     w = Strategy.price_history s ++ [(ts, price)]) /\
  (length (Strategy.price_history s) = 1000%nat -> length w = 500%nat).
Proof.
  intros Hlen. cbv zeta. rewrite add_price_eq. cbn [snd]. fields.
  assert (Hl : length (Strategy.price_history s ++ [(ts, price)])
               = S (length (Strategy.price_history s))).
  { rewrite length_app. cbn [length]. lia. }
  destruct (Nat.ltb_spec 1000 (length (Strategy.price_history s ++ [(ts, price)])))
    as [Hgt|Hle].
  - split; [apply slice_last_keeps_last; lia|].
    rewrite slice_last_length by lia. rewrite Hl.
    change (Z.to_nat 500) with 500%nat.
    split; [lia|]. split; [lia|]. lia.
  - split; [eexists; reflexivity|]. split; [lia|]. split; [reflexivity|]. lia.
Qed.

(** Once the window holds 1000 samples or more, [add_price] leaves exactly
    the 500 most recent ones of the window with the new sample appended. *)
Lemma add_price_at_cap (ts : Z) (price : Q) (s : Strategy.t) :
  (1000 <= length (Strategy.price_history s))%nat ->
  let w := Strategy.price_history (snd (Strategy.add_price ts price s)) in
  w = most_recent 500 (Strategy.price_history s ++ [(ts, price)]) /\
  w = skipn (length (Strategy.price_history s) - 499)
        (Strategy.price_history s ++ [(ts, price)]) /\
  length w = 500%nat.
Proof.
  intros Hlen. cbv zeta. rewrite add_price_eq. cbn [snd]. fields.
  assert (Hl : length (Strategy.price_history s ++ [(ts, price)])
               = S (length (Strategy.price_history s))).
  { rewrite length_app. cbn [length]. lia. }
  destruct (Nat.ltb_spec 1000 (length (Strategy.price_history s ++ [(ts, price)])))
    as [Hgt|Hle]; [|lia].
  rewrite slice_last_pos by lia. unfold most_recent.
  change (Z.to_nat 500) with 500%nat. rewrite Hl.
  replace (S (length (Strategy.price_history s)) - 500)%nat
    with (length (Strategy.price_history s) - 499)%nat by lia.
  split; [reflexivity|]. split; [reflexivity|].
  rewrite length_skipn, Hl. lia.
Qed.

(** X1.  [add_price] keeps the newest sample at the end of the window and
    the window within 1000 samples: below the cap it appends; at the cap
    (and above it) it leaves exactly the 500 most recent samples of the
    window with the new one appended, in their order, that is the last 499
    of the old window followed by the new sample; no engine operation run
    from a fresh engine ever leaves more than 1000 samples. *)
Theorem price_window_bounded :
  (forall (ts : Z) (price : Q) (s : Strategy.t),
     (length (Strategy.price_history s) <= 1000)%nat ->
     let w := Strategy.price_history (snd (Strategy.add_price ts price s)) in
     (exists front, w = front ++ [(ts, price)]) /\
     (length w <= 1000)%nat /\
     ((length (Strategy.price_history s) < 1000)%nat ->
        w = Strategy.price_history s ++ [(ts, price)]) /\
     (length (Strategy.price_history s) = 1000%nat ->
        w = most_recent 500 (Strategy.price_history s ++ [(ts, price)]) /\
        w = skipn 501 (Strategy.price_history s) ++ [(ts, price)] /\
        length w = 500%nat)) /\
  (forall (ts : Z) (price : Q) (s : Strategy.t),
     (1000 <= length (Strategy.price_history s))%nat ->
     let w := Strategy.price_history (snd (Strategy.add_price ts price s)) in
     w = most_recent 500 (Strategy.price_history s ++ [(ts, price)]) /\
     length w = 500%nat) /\
  (forall (lb : Z) (m lev ps tf thr : Q) (ops : list Spec.Op),
     (length (Strategy.price_history
                (Spec.run ops (Strategy.init lb m lev ps tf thr))) <= 1000)%nat).
Proof.
  split; [|split].
  - intros ts price s Hlen. cbv zeta.
    destruct (add_price_window ts price s Hlen) as (H1 & H2 & H3 & _).
    split; [exact H1|]. split; [exact H2|]. split; [exact H3|].
    intros E.
    destruct (add_price_at_cap ts price s ltac:(lia)) as (Hm & Hs & Hn).
    split; [exact Hm|]. split; [|exact Hn].
    rewrite Hs, E. change (1000 - 499)%nat with 501%nat.
    rewrite skipn_app, E. change (501 - 1000)%nat with 0%nat. reflexivity.
  - intros ts price s Hlen. cbv zeta.
    destruct (add_price_at_cap ts price s Hlen) as (Hm & _ & Hn).
    split; assumption.
  - intros lb m lev ps tf thr ops.
    assert (H : forall s, (length (Strategy.price_history s) <= 1000)%nat ->
                          (length (Strategy.price_history (Spec.run ops s)) <= 1000)%nat).
    { induction ops as [|o ops IH]; intros s Hs; [exact Hs|].
      cbn [Spec.run fold_left]. apply IH. destruct o; unfold Spec.step.
      - rewrite process_price_update_eq, after_add_price_window.
        apply (add_price_window timestamp price s Hs).
      - rewrite open_position_window. exact Hs.
      - rewrite close_position_window. exact Hs.
      - rewrite check_liquidation_window. exact Hs. }
    apply H. cbn. lia.
Qed.

(** At the cap: a window of 1000 samples, the prices 1, 2, ..., 1000 at the
    instants 0, ..., 999; the sample added at instant 1000 leaves the
    samples of the instants 501, ..., 999 and the new one. *)
Lemma price_window_bounded_witness :
  let full :=
    with_prices Strategy.default
      (map (fun n => inject_Z (Z.of_nat n)) (seq 1 1000)) in
  let w := Strategy.price_history (snd (Strategy.add_price 1000 2000 full)) in
  w = skipn 501 (Strategy.price_history full) ++ [(1000%Z, 2000)] /\
  length w = 500%nat /\
  hd_error w = Some (501%Z, 502).
Proof.
  cbv zeta.
  destruct (proj2 (proj2 (proj2
             (proj1 price_window_bounded 1000%Z 2000
                (with_prices Strategy.default
                   (map (fun n => inject_Z (Z.of_nat n)) (seq 1 1000)))
                ltac:(apply Nat.eq_le_incl; vm_compute; reflexivity)))))
    as (_ & Hs & Hn); [vm_compute; reflexivity|].
  split; [exact Hs|]. split; [exact Hn|].
  rewrite Hs. vm_compute. reflexivity.
Defined.

Lemma slice_last_slice_last {A : Type} (k j : Z) (l : list A) :
  (0 < k <= j)%Z -> slice_last k (slice_last j l) = slice_last k l.
Proof.
  intros H. rewrite (slice_last_pos k) by lia. rewrite slice_last_length by lia.
  rewrite (slice_last_pos j) by lia. rewrite (slice_last_pos k) by lia.
  rewrite skipn_skipn. f_equal. lia.
Qed.

Lemma detect_trend_window_only (s1 s2 : Strategy.t) :
  Strategy.lookback_periods s1 = Strategy.lookback_periods s2 ->
  Strategy.min_trend_strength s1 = Strategy.min_trend_strength s2 ->
  (Z.of_nat (length (Strategy.price_history s1)) <? Strategy.lookback_periods s1 + 1)%Z
  = (Z.of_nat (length (Strategy.price_history s2)) <? Strategy.lookback_periods s2 + 1)%Z ->
  Strategy.recent_prices s1 = Strategy.recent_prices s2 ->
  Strategy.detect_trend s1 = Strategy.detect_trend s2.
Proof.
  intros Hl Hm Hn Hr. unfold Strategy.detect_trend. rewrite Hn, Hm, Hr.
  reflexivity.
Qed.

(** X2.  The trimming of [add_price] does not show in [detect_trend] when
    [0 <= lookback_periods <= 499]: the trend after the tick's [add_price] is
    the trend of the untrimmed window with the sample appended.  With
    [lookback_periods >= 500] the [add_price] that trims leaves fewer than
    [lookback_periods + 1] samples, and [detect_trend] returns none. *)
Theorem trimming_and_detect_trend (ts : Z) (price : Q) (s : Strategy.t) :
  ((0 <= Strategy.lookback_periods s <= 499)%Z ->
     Strategy.detect_trend (snd (Strategy.add_price ts price s))
     = Strategy.detect_trend (appended ts price s)) /\
  ((500 <= Strategy.lookback_periods s)%Z ->
     (1000 <= length (Strategy.price_history s))%nat ->
     Strategy.detect_trend (snd (Strategy.add_price ts price s)) = None).
Proof.
  rewrite add_price_eq. cbn [snd]. cbv zeta.
  set (l := Strategy.price_history s ++ [(ts, price)]).
  assert (Hl : length l = S (length (Strategy.price_history s))).
  { unfold l. rewrite length_app. cbn [length]. lia. }
  split.
  - intros Hb. destruct (Nat.ltb_spec 1000 (length l)) as [Hgt|Hle];
      [|reflexivity].
    apply detect_trend_window_only; try reflexivity.
    + unfold appended. fields. fold l. rewrite slice_last_length by lia.
      change (Z.to_nat 500) with 500%nat.
      destruct (Z.ltb_spec (Z.of_nat (Nat.min 500 (length l)))
                  (Strategy.lookback_periods s + 1));
        destruct (Z.ltb_spec (Z.of_nat (length l))
                    (Strategy.lookback_periods s + 1)); try reflexivity; lia.
    + unfold Strategy.recent_prices, appended. fields. fold l.
      rewrite slice_last_slice_last by lia. reflexivity.
  - intros Hb Hfull.
    destruct (Nat.ltb_spec 1000 (length l)) as [Hgt|Hle]; [|lia].
    unfold Strategy.detect_trend. fields.
    rewrite slice_last_length by lia. change (Z.to_nat 500) with 500%nat.
    destruct (Z.ltb_spec (Z.of_nat (Nat.min 500 (length l)))
                (Strategy.lookback_periods s + 1)); [reflexivity | lia].
Qed.

Lemma trimming_and_detect_trend_witness :
  Strategy.detect_trend
    (snd (Strategy.add_price 3 103 (with_prices Strategy.default [100; 101; 102])))
  = Strategy.detect_trend
      (appended 3 103 (with_prices Strategy.default [100; 101; 102])).
Proof.
  apply (proj1 (trimming_and_detect_trend 3 103
                  (with_prices Strategy.default [100; 101; 102]))).
  cbn. lia.
Defined.

(** ** The ledger *)

Lemma step_ledger (s : Strategy.t) (o : Spec.Op) :
  extends_by 1 (Strategy.completed_trades s) (Strategy.completed_trades (Spec.step s o)).
Proof.
  assert (Hsame : forall l : list Trade.t, extends_by 1 l l).
  { intros l. exists []. rewrite app_nil_r. split; [reflexivity | cbn; lia]. }
  assert (Hclose : forall price ts reason s0,
            extends_by 1 (Strategy.completed_trades s0)
              (Strategy.completed_trades
                 (snd (Strategy.close_position price ts reason s0)))).
  { intros price ts reason s0. rewrite close_position_eq.
    destruct (Strategy.current_position s0); [|apply Hsame].
    cbv zeta. cbn [snd]. fields. eexists. split; [reflexivity | cbn; lia]. }
  assert (Hopen : forall side price ts s0,
            Strategy.completed_trades (snd (Strategy.open_position side price ts s0))
            = Strategy.completed_trades s0).
  { intros side price ts s0. rewrite open_position_eq.
    destruct (Strategy.current_position s0); [reflexivity|].
    destruct (ltb _ _); [reflexivity|]. cbv zeta.
    destruct (eqb _ _); reflexivity. }
  destruct o; unfold Spec.step.
  - rewrite process_price_update_eq, add_price_eq. cbn [snd].
    set (s1 := Strategy.set_price_history _ s).
    change (Strategy.completed_trades s) with (Strategy.completed_trades s1).
    unfold after_add_price.
    destruct (Strategy.current_position s1) as [pos|].
    + destruct (Position.is_liquidated pos price); [apply Hclose|].
      destruct (_ || _); [apply Hclose | apply Hsame].
    + destruct (Strategy.detect_trend s1) as [[|]|]; [| |apply Hsame].
      * pose proof (Hopen long price timestamp s1) as H.
        destruct (Strategy.open_position long price timestamp s1) as [[[|]|e] s2];
          cbn [snd] in *; rewrite H; apply Hsame.
      * pose proof (Hopen short price timestamp s1) as H.
        destruct (Strategy.open_position short price timestamp s1) as [[[|]|e] s2];
          cbn [snd] in *; rewrite H; apply Hsame.
  - rewrite Hopen. apply Hsame.
  - apply Hclose.
  - rewrite check_liquidation_eq.
    destruct (Strategy.current_position s) as [pos|]; [|apply Hsame].
    destruct (Position.is_liquidated pos price); [apply Hclose | apply Hsame].
Qed.

(** X3.  The ledger of completed trades is append-only under the engine's
    operations: each tick, open, close or liquidation check keeps every
    recorded trade in place and adds at most one at the end, so a sequence of
    [n] operations adds at most [n]. *)
Theorem ledger_append_only (ops : list Spec.Op) (s : Strategy.t) :
  extends_by (length ops) (Strategy.completed_trades s)
    (Strategy.completed_trades (Spec.run ops s)).
Proof.
  revert s. induction ops as [|o ops IH]; intros s.
  - exists []. rewrite app_nil_r. split; [reflexivity | cbn; lia].
  - cbn [Spec.run fold_left length].
    destruct (step_ledger s o) as (a1 & E1 & L1).
    destruct (IH (Spec.step s o)) as (a2 & E2 & L2).
    exists (a1 ++ a2). unfold Spec.run in E2. rewrite E2, E1, app_assoc.
    split; [reflexivity|]. rewrite length_app. lia.
Qed.

(** ** Positions and money *)

Lemma open_position_true (side : Side) (price : Q) (ts : Z) (s s' : Strategy.t) :
  Strategy.open_position side price ts s = (Returned true, s') ->
  ~ Strategy.leverage s == 0 /\
  Strategy.current_position s = None /\
  s' = Strategy.set_current_position
         (Some (Position.Build side price (Strategy.position_size s)
                  (Strategy.leverage s) ts (liquidation_price_at s price side)))
         (Strategy.set_total_fees_paid (Strategy.total_fees_paid s + entry_fee s)
            (Strategy.set_balance (Strategy.balance s - entry_fee s) s)).
Proof.
  intros H. rewrite open_position_eq in H.
  destruct (Strategy.current_position s); [discriminate|].
  destruct (ltb _ _); [discriminate|]. cbv zeta in H.
  destruct (eqb (Strategy.leverage s) 0) eqn:Hz; [discriminate|].
  injection H as <-. split; [|split; reflexivity].
  intros E. apply eqb_eq in E. congruence.
Qed.



(** ** What the tag of a tick tells *)

(** X8.  The value a tick returns tells what it did.  No tag: only the
    window has changed.  [liquidated] or [closed_position]: a position was
    open, none is left, and the ledger has one more trade, closed at the
    tick's price and time with reason liquidation, respectively
    trend_reversal.  [opened_long] or [opened_short]: no position was open,
    one is now, and the ledger is as it was.  A tick never returns
    [manual_close]; it raises only with a leverage of zero, and then leaves no
    position and the ledger as it was. *)
Theorem tick_tag_tells_what_happened
    (ts : Z) (price : Q) (s s' : Strategy.t) (r : outcome (option Action)) :
  Strategy.process_price_update ts price s = (r, s') ->
  match r with
  | Returned None => s' = snd (Strategy.add_price ts price s)
  | Returned (Some a) =>
      a <> manual_close /\
      match closing_reason a with
      | Some reason =>
          Strategy.current_position s <> None /\
          Strategy.current_position s' = None /\
          exists trade,
            Strategy.completed_trades s' = Strategy.completed_trades s ++ [trade] /\
            Trade.reason trade = reason /\
            Trade.exit_price trade = price /\
            Trade.exit_time trade = ts
      | None =>
          Strategy.current_position s = None /\
          Strategy.current_position s' <> None /\
          Strategy.completed_trades s' = Strategy.completed_trades s
      end
  | Raised _ =>
      Strategy.leverage s == 0 /\
      Strategy.current_position s = None /\
      Strategy.current_position s' = None /\
      Strategy.completed_trades s' = Strategy.completed_trades s
  end.
Proof.
  rewrite process_price_update_eq, add_price_eq. cbn [snd].
  set (s1 := Strategy.set_price_history _ s).
  change (Strategy.current_position s) with (Strategy.current_position s1).
  change (Strategy.completed_trades s) with (Strategy.completed_trades s1).
  change (Strategy.leverage s) with (Strategy.leverage s1).
  assert (Hclose : forall reason pos,
            Strategy.current_position s1 = Some pos ->
            Strategy.current_position
              (snd (Strategy.close_position price ts reason s1)) = None /\
            exists trade,
              Strategy.completed_trades
                (snd (Strategy.close_position price ts reason s1))
              = Strategy.completed_trades s1 ++ [trade] /\
              Trade.reason trade = reason /\
              Trade.exit_price trade = price /\
              Trade.exit_time trade = ts).
  { intros reason pos Hp. rewrite close_position_eq, Hp. cbv zeta. cbn [snd].
    fields. split; [reflexivity|]. eexists. split; [reflexivity|].
    cbn. auto. }
  assert (Hopen : forall side r0 s2,
            Strategy.current_position s1 = None ->
            Strategy.open_position side price ts s1 = (r0, s2) ->
            match r0 with
            | Returned true =>
                Strategy.current_position s2 <> None /\
                Strategy.completed_trades s2 = Strategy.completed_trades s1
            | Returned false => s2 = s1
            | Raised _ =>
                Strategy.leverage s1 == 0 /\
                Strategy.current_position s2 = None /\
                Strategy.completed_trades s2 = Strategy.completed_trades s1
            end).
  { intros side r0 s2 Hp Ho. destruct r0 as [[|]|e].
    - destruct (open_position_true _ _ _ _ _ Ho) as (_ & _ & ->).
      fields. split; [discriminate | reflexivity].
    - apply (open_position_false_same _ _ _ _ _ Ho).
    - destruct (open_position_raised _ _ _ _ _ _ Ho) as (H1 & H2 & H3 & _).
      auto. }
  unfold after_add_price.
  destruct (Strategy.current_position s1) as [pos|] eqn:Hp.
  - destruct (Position.is_liquidated pos price).
    + intros H. injection H as <- <-. split; [discriminate|]. cbn [closing_reason].
      split; [discriminate|]. apply (Hclose liquidation pos eq_refl).
    + destruct (_ || _).
      * intros H. injection H as <- <-. split; [discriminate|].
        cbn [closing_reason]. split; [discriminate|].
        apply (Hclose trend_reversal pos eq_refl).
      * intros H. injection H as <- <-. reflexivity.
  - destruct (Strategy.detect_trend s1) as [[|]|].
    + pose proof (Hopen long) as Ho.
      destruct (Strategy.open_position long price ts s1) as [[[|]|e] s2];
        specialize (Ho _ _ eq_refl eq_refl); intros H; injection H as <- <-.
      * split; [discriminate|]. cbn [closing_reason].
        split; [reflexivity | exact Ho].
      * exact Ho.
      * destruct Ho as (A & B & C). auto.
    + pose proof (Hopen short) as Ho.
      destruct (Strategy.open_position short price ts s1) as [[[|]|e] s2];
        specialize (Ho _ _ eq_refl eq_refl); intros H; injection H as <- <-.
      * split; [discriminate|]. cbn [closing_reason].
        split; [reflexivity | exact Ho].
      * exact Ho.
      * destruct Ho as (A & B & C). auto.
    + intros H. injection H as <- <-. reflexivity.
Qed.

Lemma tick_tag_tells_what_happened_witness :
  Strategy.current_position (with_prices Strategy.default [100; 101; 102]) = None /\
  Strategy.current_position
    (snd (Strategy.process_price_update 3 103
            (with_prices Strategy.default [100; 101; 102]))) <> None.
Proof.
  destruct (tick_tag_tells_what_happened 3 103
              (with_prices Strategy.default [100; 101; 102])
              (snd (Strategy.process_price_update 3 103
                      (with_prices Strategy.default [100; 101; 102])))
              (Returned (Some opened_long))
              ltac:(vm_compute; reflexivity)) as (_ & H1 & H2 & _).
  split; assumption.
Defined.

(** ** Bounds on the statistics *)









(** ** The two conditions of the trend *)

(** X11.  With at least one lookback period, a strength that is not
    negative and no negative price, a full window never satisfies both
    conditions of [detect_trend]: [higher_highs] and [lower_lows] are not
    both true. *)
Theorem trend_conditions_exclusive (s : Strategy.t) :
  (1 <= Strategy.lookback_periods s)%Z ->
  0 <= Strategy.min_trend_strength s ->
  Forall (fun p => 0 <= p) (prices s) ->
  (Strategy.lookback_periods s + 1 <= Z.of_nat (length (prices s)))%Z ->
  Strategy.higher_highs (Strategy.min_trend_strength s) (Strategy.recent_prices s)
    && Strategy.lower_lows (Strategy.min_trend_strength s) (Strategy.recent_prices s)
  = false.
Proof.
  intros Hl Hm Hp Hlen.
  assert (Hex : every_consecutive_pair (rises (Strategy.min_trend_strength s)) (window s) ->
                every_consecutive_pair (falls (Strategy.min_trend_strength s)) (window s) ->
                False).
  { apply rises_falls_exclusive; [assumption| |].
    - unfold window, most_recent. rewrite Forall_forall in *.
      intros x Hx. apply Hp. eapply In_skipn_In; eauto.
    - unfold window, most_recent. rewrite length_skipn. lia. }
  rewrite recent_prices_window by lia.
  destruct (Strategy.higher_highs _ _) eqn:Hh; [|reflexivity].
  destruct (Strategy.lower_lows _ _) eqn:Hw; [|reflexivity].
  exfalso. apply Hex; [apply higher_highs_spec, Hh | apply lower_lows_spec, Hw].
Qed.

Lemma trend_conditions_exclusive_witness :
  Strategy.higher_highs (5 # 10000)
    (Strategy.recent_prices (with_prices Strategy.default [100; 99; 98; 97]))
  && Strategy.lower_lows (5 # 10000)
       (Strategy.recent_prices (with_prices Strategy.default [100; 99; 98; 97]))
  = false.
Proof.
  apply (trend_conditions_exclusive
           (with_prices Strategy.default [100; 99; 98; 97])
           ltac:(vm_compute; discriminate)
           ltac:(vm_compute; discriminate)
           ltac:(repeat constructor; vm_compute; discriminate)
           ltac:(vm_compute; discriminate)).
Defined.

(** * Further properties of the coordinator *)

(** ** A fetch, case by case *)

Lemma log_trading_action_exact (a : Action) (price : Q) (ts : Z) (b : TradingBot.t) :
  TradingBot._log_trading_action a price ts b =
  (Returned tt,
   TradingBot.set_trade_log
     (let l := TradingBot.trade_log b ++ [Coordinator.log_entry a price ts b] in
      if (100 <? length l)%nat then slice_last 50 l else l) b).
Proof.
  unfold TradingBot._log_trading_action, Coordinator.log_entry,
    bind, read, assign, ret, id.
  bot_fields. cbv zeta.
  destruct (Nat.ltb _ _); destruct b; reflexivity.
Qed.

Lemma fetch_eq (price : Q) (now : Z) (b : TradingBot.t) :
  TradingBot._fetch_and_process_price (Some price) now b =
  let b1 :=
    TradingBot.set_price_history
      (let ph := TradingBot.price_history b ++ [(now, price)] in
       if (1000 <? length ph)%nat then slice_last 500 ph else ph) b in
  match Strategy.process_price_update now price (TradingBot.strategy b) with
  | (Raised e, s') => (Raised e, TradingBot.set_strategy s' b1)
  | (Returned action, s') =>
      let b2 := TradingBot.set_strategy s' b1 in
      let b3 :=
        match action with
        | Some a => snd (TradingBot._log_trading_action a price now b2)
        | None => b2
        end in
      (Returned tt,
       TradingBot.set_error_count 0
         (TradingBot.set_last_update (Some now)
            (TradingBot.set_last_price (Some price) b3)))
  end.
Proof.
  unfold TradingBot._fetch_and_process_price.
  unfold bind, read, assign, ret, TradingBot.on_strategy, on_field.
  destruct b as [s run lp lu ph tl ec]. bot_fields. cbv zeta.
  destruct (Nat.ltb _ _);
    bot_fields;
    destruct (Strategy.process_price_update now price s) as [[[a|]|e] s'];
    try reflexivity;
    rewrite !log_trading_action_exact; reflexivity.
Qed.

Lemma manual_open_eq (side : Side) (now : Z) (b : TradingBot.t) :
  Coordinator.manual_open_position side now b =
  match Strategy.current_position (TradingBot.strategy b), TradingBot.last_price b with
  | None, Some price =>
      (fst (Strategy.open_position side price now (TradingBot.strategy b)),
       TradingBot.set_strategy
         (snd (Strategy.open_position side price now (TradingBot.strategy b))) b)
  | _, _ => (Returned false, b)
  end.
Proof.
  unfold Coordinator.manual_open_position, bind, read, ret, id,
    TradingBot.on_strategy, on_field.
  destruct (Strategy.current_position (TradingBot.strategy b)); [reflexivity|].
  destruct (TradingBot.last_price b); [|reflexivity].
  destruct (Strategy.open_position side q now (TradingBot.strategy b)); reflexivity.
Qed.

Lemma manual_close_exact (now1 now2 : Z) (b : TradingBot.t) :
  TradingBot.manual_close_position now1 now2 b =
  match Strategy.current_position (TradingBot.strategy b), TradingBot.last_price b with
  | Some _, Some price =>
      if neqb price 0
      then
        (fst (Strategy.close_position price now1 manual (TradingBot.strategy b)),
         snd (TradingBot._log_trading_action manual_close price now2
                (TradingBot.set_strategy
                   (snd (Strategy.close_position price now1 manual
                           (TradingBot.strategy b))) b)))
      else (Returned None, b)
  | _, _ => (Returned None, b)
  end.
Proof.
  unfold TradingBot.manual_close_position, bind, read, id, ret.
  destruct (Strategy.current_position (TradingBot.strategy b)) as [pos|] eqn:Hp;
    [|reflexivity].
  cbn [truthy negb].
  destruct (TradingBot.last_price b) as [price|]; [|reflexivity].
  cbn [truthy_float]. destruct (neqb price 0); [|reflexivity]. cbn [negb].
  unfold TradingBot.on_strategy, on_field.
  rewrite close_position_eq, Hp. cbv zeta. cbn [truthy fst snd].
  rewrite !log_trading_action_exact. reflexivity.
Qed.

Lemma trim_bound {A : Type} (cap : nat) (keep : Z) (l : list A) (x : A) :
  (0 < keep)%Z -> (Z.to_nat keep <= cap)%nat -> (length l <= cap)%nat ->
  (length (let l' := l ++ [x] in
           if (cap <? length l')%nat then slice_last keep l' else l') <= cap)%nat.
Proof.
  intros Hk Hc Hl. cbv zeta.
  assert (E : length (l ++ [x]) = S (length l)).
  { rewrite length_app. cbn [length]. lia. }
  destruct (Nat.ltb_spec cap (length (l ++ [x]))).
  - rewrite slice_last_length by assumption. lia.
  - lia.
Qed.

Lemma tick_window (ts : Z) (price : Q) (s : Strategy.t) :
  Strategy.price_history (snd (Strategy.process_price_update ts price s))
  = (let ph := Strategy.price_history s ++ [(ts, price)] in
     if (1000 <? length ph)%nat then slice_last 500 ph else ph).
Proof.
  rewrite process_price_update_eq, after_add_price_window, add_price_eq.
  reflexivity.
Qed.

Lemma log_trading_action_fields (a : Action) (price : Q) (ts : Z) (b : TradingBot.t) :
  let b' := snd (TradingBot._log_trading_action a price ts b) in
  TradingBot.strategy b' = TradingBot.strategy b /\
  TradingBot.price_history b' = TradingBot.price_history b /\
  TradingBot.is_running b' = TradingBot.is_running b /\
  TradingBot.error_count b' = TradingBot.error_count b /\
  TradingBot.last_price b' = TradingBot.last_price b /\
  ((length (TradingBot.trade_log b) <= 100)%nat ->
   (length (TradingBot.trade_log b') <= 100)%nat).
Proof.
  cbv zeta. rewrite log_trading_action_exact. cbn [snd]. bot_fields.
  repeat split. intros H. apply trim_bound; [lia | | exact H].
  change (Z.to_nat 50) with 50%nat. lia.
Qed.

(** ** What every coordinator operation keeps *)

(** The three facts kept together: the two price histories hold the same
    samples, the buffers are within their caps, and the engine's balance
    equation holds. *)
Lemma coordinator_step_keeps (b : TradingBot.t) (o : Coordinator.Op) :
  Coordinator.in_step b /\ Coordinator.within_caps b
  /\ balance_equation (TradingBot.strategy b) ->
  Coordinator.in_step (Coordinator.step b o)
  /\ Coordinator.within_caps (Coordinator.step b o)
  /\ balance_equation (TradingBot.strategy (Coordinator.step b o)).
Proof.
  unfold Coordinator.in_step, Coordinator.within_caps.
  intros (Hs & (Hc1 & Hc2 & Hc3) & Hb).
  destruct o as [[price|] now | side now | now1 now2 | lev ps lb m | now1 now2];
    unfold Coordinator.step.
  - (* a fetch that delivers a price *)
    rewrite fetch_eq. cbv zeta.
    pose proof (tick_window now price (TradingBot.strategy b)) as Hw.
    pose proof (balance_equation_step (TradingBot.strategy b) (Tick now price) Hb)
      as Hb'.
    unfold Spec.step in Hb'.
    pose proof (trim_bound 1000 500 (TradingBot.price_history b) (now, price)
                  ltac:(lia) ltac:(change (Z.to_nat 500) with 500%nat; lia) Hc1)
      as Hc1'.
    destruct (Strategy.process_price_update now price (TradingBot.strategy b))
      as [[[a|]|e] s']; cbn [snd] in *.
    + destruct (log_trading_action_fields a price now
                  (TradingBot.set_strategy s'
                     (TradingBot.set_price_history
                        (let ph := TradingBot.price_history b ++ [(now, price)] in
                         if (1000 <? length ph)%nat then slice_last 500 ph else ph) b)))
        as (E1 & E2 & _ & _ & _ & E3).
      bot_fields. rewrite E1, E2. bot_fields.
      rewrite Hw, <- Hs. split; [reflexivity|]. split; [|exact Hb'].
      split; [exact Hc1'|]. split; [exact Hc1'|]. apply E3, Hc3.
    + bot_fields. rewrite Hw, <- Hs. split; [reflexivity|]. split; [|exact Hb'].
      split; [exact Hc1'|]. split; [exact Hc1'|]. exact Hc3.
    + bot_fields. rewrite Hw, <- Hs. split; [reflexivity|]. split; [|exact Hb'].
      split; [exact Hc1'|]. split; [exact Hc1'|]. exact Hc3.
  - (* a fetch that fails *)
    cbn [TradingBot._fetch_and_process_price ret snd]. auto.
  - (* manual open *)
    rewrite manual_open_eq.
    destruct (Strategy.current_position (TradingBot.strategy b)); [cbn [snd]; auto|].
    destruct (TradingBot.last_price b) as [price|]; [|cbn [snd]; auto].
    cbn [snd]. bot_fields. rewrite open_position_window.
    split; [exact Hs|]. split; [auto|]. apply balance_equation_open, Hb.
  - (* manual close *)
    rewrite manual_close_exact.
    destruct (Strategy.current_position (TradingBot.strategy b)); [|cbn [snd]; auto].
    destruct (TradingBot.last_price b) as [price|]; [|cbn [snd]; auto].
    destruct (neqb price 0); [|cbn [snd]; auto]. cbn [snd].
    destruct (log_trading_action_fields manual_close price now2
                (TradingBot.set_strategy
                   (snd (Strategy.close_position price now1 manual
                           (TradingBot.strategy b))) b))
      as (E1 & E2 & _ & _ & _ & E3).
    rewrite E1, E2. bot_fields. rewrite close_position_window.
    split; [exact Hs|]. split; [|apply balance_equation_close, Hb].
    split; [exact Hc1|]. split; [exact Hc2|]. apply E3, Hc3.
  - (* parameters *)
    rewrite update_strategy_params_strategy. cbn [snd]. bot_fields. cbv zeta.
    destruct lev, ps, lb, m; fields; auto.
  - (* reset *)
    rewrite reset_strategy_unfold. cbv zeta. cbn [snd]. bot_fields. fields.
    assert (Hin : TradingBot.price_history
                    (if truthy (Strategy.current_position (TradingBot.strategy b))
                     then snd (TradingBot.manual_close_position now1 now2 b) else b)
                  = TradingBot.price_history b /\
                  Strategy.price_history
                    (TradingBot.strategy
                       (if truthy (Strategy.current_position (TradingBot.strategy b))
                        then snd (TradingBot.manual_close_position now1 now2 b) else b))
                  = Strategy.price_history (TradingBot.strategy b)).
    { destruct (truthy _); [|auto].
      rewrite manual_close_exact.
      destruct (Strategy.current_position (TradingBot.strategy b)); [|cbn [snd]; auto].
      destruct (TradingBot.last_price b) as [price|]; [|cbn [snd]; auto].
      destruct (neqb price 0); [|cbn [snd]; auto]. cbn [snd].
      destruct (log_trading_action_fields manual_close price now2
                  (TradingBot.set_strategy
                     (snd (Strategy.close_position price now1 manual
                             (TradingBot.strategy b))) b))
        as (E1 & E2 & _).
      rewrite E1, E2. bot_fields. rewrite close_position_window. auto. }
    destruct Hin as [Hi1 Hi2]. rewrite Hi1, Hi2.
    split; [exact Hs|]. split.
    + split; [exact Hc1|]. split; [exact Hc2|]. cbn. lia.
    + unfold balance_equation. fields. cbn [map total fold_right]. ring.
Qed.

Lemma coordinator_run_keeps (ops : list Coordinator.Op) (b : TradingBot.t) :
  Coordinator.in_step b /\ Coordinator.within_caps b
  /\ balance_equation (TradingBot.strategy b) ->
  Coordinator.in_step (Coordinator.run ops b)
  /\ Coordinator.within_caps (Coordinator.run ops b)
  /\ balance_equation (TradingBot.strategy (Coordinator.run ops b)).
Proof.
  revert b. induction ops as [|o ops IH]; intros b H; [exact H|].
  apply IH, coordinator_step_keeps, H.
Qed.

Lemma coordinator_init_keeps (lb : Z) (lev ps tf : Q) :
  Coordinator.in_step (TradingBot.init lb lev ps tf)
  /\ Coordinator.within_caps (TradingBot.init lb lev ps tf)
  /\ balance_equation (TradingBot.strategy (TradingBot.init lb lev ps tf)).
Proof.
  split; [reflexivity|]. split.
  - unfold Coordinator.within_caps. cbn. lia.
  - unfold balance_equation. cbn. ring.
Qed.

(** X12.  The coordinator's price history and the engine's price window
    hold the same samples after every sequence of fetches, manual opens and
    closes, parameter updates and resets on a fresh coordinator: both append
    the fetched sample and trim alike, also on a tick that raises. *)
Theorem price_histories_in_step
    (lb : Z) (lev ps tf : Q) (ops : list Coordinator.Op) :
  TradingBot.price_history (Coordinator.run ops (TradingBot.init lb lev ps tf))
  = Strategy.price_history
      (TradingBot.strategy (Coordinator.run ops (TradingBot.init lb lev ps tf))).
Proof.
  apply (coordinator_run_keeps ops), coordinator_init_keeps.
Qed.

(** X13.  After every sequence of coordinator operations on a fresh
    coordinator the price history and the engine's window hold at most 1000
    samples and the activity log at most 100 entries. *)
Theorem coordinator_buffers_within_caps
    (lb : Z) (lev ps tf : Q) (ops : list Coordinator.Op) :
  let b := Coordinator.run ops (TradingBot.init lb lev ps tf) in
  (length (TradingBot.price_history b) <= 1000)%nat /\
  (length (Strategy.price_history (TradingBot.strategy b)) <= 1000)%nat /\
  (length (TradingBot.trade_log b) <= 100)%nat.
Proof.
  apply (coordinator_run_keeps ops), coordinator_init_keeps.
Qed.

(** ** The views *)

Lemma most_recent_entries_spec {A : Type} (limit : option Z) (l : list A) :
  (exists front, l = front ++ Coordinator.most_recent_entries limit l) /\
  (limit = None \/ limit = Some 0%Z -> Coordinator.most_recent_entries limit l = l) /\
  (forall n, limit = Some n -> (0 < n)%Z ->
     length (Coordinator.most_recent_entries limit l)
     = Nat.min (Z.to_nat n) (length l)) /\
  (forall n, limit = Some n -> (n < 0)%Z ->
     Coordinator.most_recent_entries limit l = skipn (Z.to_nat (- n)) l).
Proof.
  unfold Coordinator.most_recent_entries, Coordinator.truthy_int.
  split; [|split; [|split]].
  - destruct limit as [n|]; [|exists []; reflexivity].
    destruct (Z.eqb_spec n 0); cbn [negb]; [exists []; reflexivity|].
    unfold slice_last.
    destruct (0 <? n)%Z; eexists; symmetry; apply firstn_skipn.
  - intros [->| ->]; reflexivity.
  - intros n -> Hn. destruct (Z.eqb_spec n 0); [lia|]. cbn [negb].
    apply slice_last_length, Hn.
  - intros n -> Hn. destruct (Z.eqb_spec n 0); [lia|]. cbn [negb].
    unfold slice_last. destruct (Z.ltb_spec 0 n); [lia | reflexivity].
Qed.

(** X15.  [get_price_history(limit)] and [get_trade_log(limit)] always
    return an end of the buffer.  With [limit] missing or 0 they return all
    of it (a limit of 0 does not give an empty list); with a positive
    [limit] the last [limit] entries, or all when there are fewer; with a
    negative [limit] everything but the first [-limit] entries. *)
Theorem recent_entries_views (limit : option Z) (b : TradingBot.t) :
  ((exists front,
      TradingBot.price_history b = front ++ Coordinator.get_price_history limit b) /\
   (exists front,
      TradingBot.trade_log b = front ++ Coordinator.get_trade_log limit b)) /\
  (limit = None \/ limit = Some 0%Z ->
     Coordinator.get_price_history limit b = TradingBot.price_history b /\
     Coordinator.get_trade_log limit b = TradingBot.trade_log b) /\
  (forall n, limit = Some n -> (0 < n)%Z ->
     length (Coordinator.get_price_history limit b)
     = Nat.min (Z.to_nat n) (length (TradingBot.price_history b)) /\
     length (Coordinator.get_trade_log limit b)
     = Nat.min (Z.to_nat n) (length (TradingBot.trade_log b))) /\
  (forall n, limit = Some n -> (n < 0)%Z ->
     Coordinator.get_price_history limit b
     = skipn (Z.to_nat (- n)) (TradingBot.price_history b) /\
     Coordinator.get_trade_log limit b
     = skipn (Z.to_nat (- n)) (TradingBot.trade_log b)).
Proof.
  unfold Coordinator.get_price_history, Coordinator.get_trade_log.
  destruct (most_recent_entries_spec limit (TradingBot.price_history b))
    as (P1 & P2 & P3 & P4).
  destruct (most_recent_entries_spec limit (TradingBot.trade_log b))
    as (T1 & T2 & T3 & T4).
  split; [split; assumption|].
  split; [intros H; split; auto|].
  split; intros n E Hn; split; eauto.
Qed.

Lemma recent_entries_views_witness :
  let b := feed 0 [4; 3; 2; 1; 0] TradingBot.default in
  length (Coordinator.get_price_history (Some 2%Z) b) = 2%nat /\
  Coordinator.get_price_history (Some 0%Z) b = TradingBot.price_history b.
Proof.
  cbv zeta. split.
  - rewrite (proj1 (proj1 (proj2 (proj2
               (recent_entries_views (Some 2%Z)
                  (feed 0 [4; 3; 2; 1; 0] TradingBot.default)))) 2%Z
               eq_refl ltac:(lia))).
    vm_compute. reflexivity.
  - apply (proj1 (proj2 (recent_entries_views (Some 0%Z)
                           (feed 0 [4; 3; 2; 1; 0] TradingBot.default)))).
    right. reflexivity.
Defined.

(** ** What a fetch records *)



(** ** The error counter of the loop *)



Lemma loop_cons (update_interval : Z) (fetched : option Q) (now : Z)
    (rest : list (option Q * Z)) (b : TradingBot.t) :
  Coordinator._price_update_loop update_interval ((fetched, now) :: rest) b =
  if TradingBot.is_running b
  then match Coordinator._price_update_loop_body update_interval fetched now b with
       | (Coordinator.Continue, b1) =>
           Coordinator._price_update_loop update_interval rest b1
       | (Coordinator.Break, b1) => (None, b1)
       | (Coordinator.Escapes e, b1) => (Some e, b1)
       end
  else (None, b).
Proof. reflexivity. Qed.

Lemma loop_stopped (update_interval : Z) (inputs : list (option Q * Z))
    (b : TradingBot.t) :
  TradingBot.is_running b = false ->
  Coordinator._price_update_loop update_interval inputs b = (None, b).
Proof.
  intros H. destruct inputs as [|[fetched now] rest]; [reflexivity|].
  rewrite loop_cons, H. reflexivity.
Qed.




(** ** Parameters and the open position *)

(** X18.  [update_strategy_params] reaches the four parameters only: the
    open position with its stored leverage and liquidation price, the
    balance, the fees, the ledger, the window, the fee rate and the
    liquidation threshold are as before, so whether a price liquidates the
    open position is not changed by an update. *)
Theorem params_update_keeps_position
    (lev ps : option Q) (lb : option Z) (m : option Q) (b : TradingBot.t) :
  let s := TradingBot.strategy b in
  let s' := TradingBot.strategy
              (snd (TradingBot.update_strategy_params lev ps lb m b)) in
  Strategy.current_position s' = Strategy.current_position s /\
  Strategy.balance s' = Strategy.balance s /\
  Strategy.total_fees_paid s' = Strategy.total_fees_paid s /\
  Strategy.completed_trades s' = Strategy.completed_trades s /\
  Strategy.price_history s' = Strategy.price_history s /\
  Strategy.trading_fee s' = Strategy.trading_fee s /\
  Strategy.liquidation_threshold s' = Strategy.liquidation_threshold s /\
  (forall price ts,
     fst (Strategy.check_liquidation price ts s') = Returned None <->
     fst (Strategy.check_liquidation price ts s) = Returned None).
Proof.
  cbv zeta. rewrite update_strategy_params_strategy. cbn [snd]. bot_fields.
  cbv zeta.
  assert (H : forall s1 s2 : Strategy.t,
            Strategy.current_position s1 = Strategy.current_position s2 ->
            forall price ts,
              fst (Strategy.check_liquidation price ts s1) = Returned None <->
              fst (Strategy.check_liquidation price ts s2) = Returned None).
  { intros s1 s2 E price ts. rewrite !check_liquidation_eq.
    destruct (Strategy.current_position s2) as [pos|] eqn:Hp;
      rewrite E; [|tauto].
    destruct (Position.is_liquidated pos price); [|tauto].
    destruct (close_position_some price ts liquidation s1 pos ltac:(congruence))
      as (t1 & s1' & -> & _).
    destruct (close_position_some price ts liquidation s2 pos Hp)
      as (t2 & s2' & -> & _).
    cbn [fst]. split; intros H; discriminate H. }
  destruct lev, ps, lb, m; fields;
    (repeat (split; [reflexivity|])); apply H; reflexivity.
Qed.

(** ** jupiter_api.py: the retry loop *)




(** ** Manual close *)



(** ** Before the window is full *)

(** X21.  With [lookback_periods >= 0], a tick that brings the window to
    fewer than [lookback_periods + 1] samples while no position is open does
    nothing but record the sample: it returns no action, and no position is
    opened before the window holds [lookback_periods + 1] prices. *)
Theorem no_entry_before_window_fills (ts : Z) (price : Q) (s : Strategy.t) :
  (0 <= Strategy.lookback_periods s)%Z ->
  (Z.of_nat (length (Strategy.price_history s)) < Strategy.lookback_periods s)%Z ->
  Strategy.current_position s = None ->
  Strategy.process_price_update ts price s
  = (Returned None, snd (Strategy.add_price ts price s)) /\
  Strategy.current_position (snd (Strategy.process_price_update ts price s)) = None.
Proof.
  intros H0 Hlen Hp. rewrite process_price_update_eq, add_price_eq. cbn [snd].
  set (s1 := Strategy.set_price_history _ s).
  assert (Hp1 : Strategy.current_position s1 = None) by exact Hp.
  assert (Ht : Strategy.detect_trend s1 = None).
  { unfold Strategy.detect_trend, s1. fields.
    set (l := Strategy.price_history s ++ [(ts, price)]) in *.
    assert (E : length l = S (length (Strategy.price_history s))).
    { unfold l. rewrite length_app. cbn [length]. lia. }
    destruct (Nat.ltb_spec 1000 (length l)).
    - rewrite slice_last_length by lia.
      destruct (Z.ltb_spec (Z.of_nat (Nat.min (Z.to_nat 500) (length l)))
                  (Strategy.lookback_periods s + 1)); [reflexivity | lia].
    - destruct (Z.ltb_spec (Z.of_nat (length l))
                  (Strategy.lookback_periods s + 1)); [reflexivity | lia]. }
  unfold after_add_price. rewrite Hp1, Ht. split; [reflexivity | exact Hp1].
Qed.

Lemma no_entry_before_window_fills_witness :
  fst (Strategy.process_price_update 2 102 (with_prices Strategy.default [100; 101]))
  = Returned None.
Proof.
  rewrite (proj1 (no_entry_before_window_fills 2 102
                    (with_prices Strategy.default [100; 101])
                    ltac:(vm_compute; discriminate)
                    ltac:(vm_compute; reflexivity)
                    ltac:(reflexivity))).
  reflexivity.
Defined.

(** * The engine in binary64 *)

Import PrimFloat.
Set Warnings "-inexact-float".

(** ** The mutators in binary64, case by case *)

Lemma b64_open_position_eq (side : Side) (price : float) (ts : Z) (s : B64.t) :
  B64.open_position side price ts s =
  match B64.current_position s with
  | Some _ => (Returned false, s)
  | None =>
      if (B64.balance s <? B64.entry_fee s)%float then (Returned false, s)
      else
        let s1 :=
          B64.set_total_fees_paid (B64.total_fees_paid s + B64.entry_fee s)%float
            (B64.set_balance (B64.balance s - B64.entry_fee s)%float s) in
        if (B64.leverage s =? 0)%float then (Raised ZeroDivisionError, s1)
        else
          (Returned true,
           B64.set_current_position
             (Some (B64.Position.Build side price (B64.position_size s)
                      (B64.leverage s) ts (B64.liquidation_price_at s price side)))
             s1)
  end.
Proof.
  unfold B64.open_position, B64.calculate_liquidation_price,
    B64.calculate_trading_fee, B64.entry_fee, B64.liquidation_price_at,
    bind, read, assign, ret, raise, id.
  destruct (B64.current_position s); [reflexivity|].
  destruct (PrimFloat.ltb _ _); [reflexivity|]. cbn.
  destruct (PrimFloat.eqb _ _); [reflexivity|].
  destruct side; reflexivity.
Qed.

(** The fee a close of [pos] charges, and the amount it books. *)
Lemma b64_close_position_eq (price : float) (ts : Z) (reason : Reason) (s : B64.t) :
  B64.close_position price ts reason s =
  match B64.current_position s with
  | None => (Returned None, s)
  | Some pos =>
      let fee := (B64.Position.size pos * B64.leverage s * B64.trading_fee s)%float in
      let net_pnl := (B64.Position.calculate_pnl pos price - fee)%float in
      let trade :=
        B64.Trade.Build (B64.Position.side pos) (B64.Position.entry_price pos) price
          (B64.Position.size pos) (B64.Position.leverage pos)
          (B64.Position.entry_time pos) ts net_pnl reason in
      (Returned (Some trade),
       B64.Build (B64.lookback_periods s) (B64.min_trend_strength s)
         (B64.leverage s) (B64.position_size s) (B64.trading_fee s)
         (B64.liquidation_threshold s) (B64.price_history s) None
         (B64.completed_trades s ++ [trade])
         (B64.balance s - fee + net_pnl)%float
         (B64.total_fees_paid s + fee)%float)
  end.
Proof.
  unfold B64.close_position, B64.calculate_trading_fee,
    bind, read, assign, ret, id.
  destruct (B64.current_position s); reflexivity.
Qed.

Lemma b64_check_liquidation_eq (price : float) (ts : Z) (s : B64.t) :
  B64.check_liquidation price ts s =
  match B64.current_position s with
  | None => (Returned None, s)
  | Some pos =>
      if B64.Position.is_liquidated pos price
      then B64.close_position price ts liquidation s
      else (Returned None, s)
  end.
Proof.
  unfold B64.check_liquidation, bind, read, ret, id.
  destruct (B64.current_position s) as [pos|]; [|reflexivity].
  destruct (B64.Position.is_liquidated pos price); reflexivity.
Qed.

Lemma b64_add_price_eq (ts : Z) (price : float) (s : B64.t) :
  B64.add_price ts price s =
  (Returned tt,
   B64.set_price_history
     (let ph := B64.price_history s ++ [(ts, price)] in
      if (1000 <? length ph)%nat then slice_last 500 ph else ph) s).
Proof.
  unfold B64.add_price, bind, read, assign, ret.
  cbv beta iota zeta delta [B64.price_history B64.set_price_history].
  destruct (Nat.ltb _ _); reflexivity.
Qed.

Lemma b64_process_price_update_eq (ts : Z) (price : float) (s : B64.t) :
  B64.process_price_update ts price s =
  B64.after_add_price ts price (snd (B64.add_price ts price s)).
Proof.
  unfold B64.process_price_update.
  unfold bind at 1. rewrite b64_add_price_eq. cbn [snd].
  set (s1 := B64.set_price_history _ s).
  unfold bind at 1. rewrite b64_check_liquidation_eq. unfold B64.after_add_price.
  destruct (B64.current_position s1) as [pos|] eqn:Hp.
  - destruct (B64.Position.is_liquidated pos price) eqn:Hl.
    + rewrite b64_close_position_eq, Hp. reflexivity.
    + cbn [truthy]. unfold bind, read, ret, id. rewrite Hp.
      destruct (_ || _); [|reflexivity].
      rewrite b64_close_position_eq, Hp. reflexivity.
  - cbn [truthy]. unfold bind, read, ret, id. rewrite Hp.
    destruct (B64.detect_trend s1) as [[|]|]; [| |reflexivity].
    + destruct (B64.open_position long price ts s1) as [[[|]|e] s2];
        reflexivity.
    + destruct (B64.open_position short price ts s1) as [[[|]|e] s2];
        reflexivity.
Qed.

(** ** detect_trend in binary64 *)

Lemma b64_by_index_cons2 (P : float -> float -> bool) (a b : float) (tl : list float) :
  B64.by_index P (a :: b :: tl) = P a b && B64.by_index P (b :: tl).
Proof.
  unfold B64.by_index, all, range. simpl length.
  replace (S (S (length tl)) - 1)%nat with (S (length tl)) by lia.
  replace (S (length tl) - 1)%nat with (length tl) by lia.
  cbn [seq forallb]. f_equal.
  rewrite forallb_seq_shift. apply forallb_seq_ext.
  intros i Hi. destruct i as [|i]; [lia|].
  replace (S (S i) - 1)%nat with (S (S i - 1)) by lia. reflexivity.
Qed.

Lemma b64_by_index_pairs (P : float -> float -> bool) (R : float -> float -> Prop) :
  (forall a b, P a b = true <-> R a b) ->
  forall r, B64.by_index P r = true <-> B64.every_consecutive_pair R r.
Proof.
  intros HR r. induction r as [|a tl IH].
  - simpl. unfold B64.by_index. simpl. tauto.
  - destruct tl as [|b tl].
    + unfold B64.by_index. simpl. tauto.
    + rewrite b64_by_index_cons2, andb_true_iff, HR, IH. simpl. tauto.
Qed.

Lemma b64_higher_highs_spec (m : float) (r : list float) :
  B64.higher_highs m r = true <-> B64.every_consecutive_pair (B64.rises m) r.
Proof.
  change (B64.higher_highs m r)
    with (B64.by_index (fun a b => (a * (1 + m) <? b)%float) r).
  apply b64_by_index_pairs. intros a b. reflexivity.
Qed.

Lemma b64_lower_lows_spec (m : float) (r : list float) :
  B64.lower_lows m r = true <-> B64.every_consecutive_pair (B64.falls m) r.
Proof.
  change (B64.lower_lows m r)
    with (B64.by_index (fun a b => (b <? a * (1 - m))%float) r).
  apply b64_by_index_pairs. intros a b. reflexivity.
Qed.

Lemma b64_recent_prices_window (s : B64.t) :
  (0 <= B64.lookback_periods s)%Z ->
  B64.recent_prices s = B64.window s.
Proof.
  intros H. unfold B64.recent_prices, B64.window, most_recent, slice_last.
  destruct (Z.ltb_spec 0 (B64.lookback_periods s + 1)); [|lia].
  rewrite skipn_map, length_map. reflexivity.
Qed.

Lemma b64_detect_trend_char (s : B64.t) :
  (0 <= B64.lookback_periods s)%Z ->
  ((Z.of_nat (length (B64.price_history s)) < B64.lookback_periods s + 1)%Z ->
     B64.detect_trend s = None) /\
  ((B64.lookback_periods s + 1 <= Z.of_nat (length (B64.price_history s)))%Z ->
     length (B64.window s) = Z.to_nat (B64.lookback_periods s + 1) /\
     (B64.detect_trend s = Some bullish <->
        B64.every_consecutive_pair (B64.rises (B64.min_trend_strength s)) (B64.window s)) /\
     (B64.detect_trend s = Some bearish <->
        B64.every_consecutive_pair (B64.falls (B64.min_trend_strength s)) (B64.window s) /\
        ~ B64.every_consecutive_pair (B64.rises (B64.min_trend_strength s)) (B64.window s)) /\
     (B64.detect_trend s = None <->
        ~ B64.every_consecutive_pair (B64.rises (B64.min_trend_strength s)) (B64.window s) /\
        ~ B64.every_consecutive_pair (B64.falls (B64.min_trend_strength s)) (B64.window s))).
Proof.
  intros H0. split.
  - intros Hlt. unfold B64.detect_trend.
    destruct (Z.ltb_spec (Z.of_nat (length (B64.price_history s)))
                (B64.lookback_periods s + 1)); [reflexivity | lia].
  - intros Hlen. split.
    { unfold B64.window, most_recent. rewrite length_skipn, length_map. lia. }
    unfold B64.detect_trend.
    rewrite b64_recent_prices_window by assumption.
    destruct (Z.ltb_spec (Z.of_nat (length (B64.price_history s)))
                (B64.lookback_periods s + 1)); [lia|].
    rewrite <- b64_higher_highs_spec, <- b64_lower_lows_spec.
    destruct (B64.higher_highs _ _), (B64.lower_lows _ _);
      repeat split; intros; try discriminate; try tauto; try reflexivity;
      intuition congruence.
Qed.

(** C2 (amended).  For [lookback_periods >= 0]: fewer than
    [lookback_periods + 1] samples give none; otherwise, over the most
    recent [lookback_periods + 1] prices, the result is bullish iff every
    consecutive pair satisfies price[i] > price[i-1] x (1 + min_trend_strength),
    bearish iff every pair satisfies price[i] < price[i-1] x (1 -
    min_trend_strength) and not every pair satisfies the bullish condition
    (bullish is tested first), and none iff neither holds; the sum, the
    difference and the products are the binary64 ones, rounded as the code
    rounds them.  With [lookback_periods = 3] and the default strength,
    [100, 101.2, 102.5, 103.9] is bullish, [100, 98.8, 97.5, 96.0] bearish
    and [100, 101, 100.5, 101.5] none. *)
Theorem detect_trend_binary64 :
  (forall s : B64.t,
     (0 <= B64.lookback_periods s)%Z ->
     ((Z.of_nat (length (B64.price_history s)) < B64.lookback_periods s + 1)%Z ->
        B64.detect_trend s = None) /\
     ((B64.lookback_periods s + 1 <= Z.of_nat (length (B64.price_history s)))%Z ->
        length (B64.window s) = Z.to_nat (B64.lookback_periods s + 1) /\
        (B64.detect_trend s = Some bullish <->
           B64.every_consecutive_pair (B64.rises (B64.min_trend_strength s))
             (B64.window s)) /\
        (B64.detect_trend s = Some bearish <->
           B64.every_consecutive_pair (B64.falls (B64.min_trend_strength s))
             (B64.window s) /\
           ~ B64.every_consecutive_pair (B64.rises (B64.min_trend_strength s))
               (B64.window s)) /\
        (B64.detect_trend s = None <->
           ~ B64.every_consecutive_pair (B64.rises (B64.min_trend_strength s))
               (B64.window s) /\
           ~ B64.every_consecutive_pair (B64.falls (B64.min_trend_strength s))
               (B64.window s)))) /\
  B64.detect_trend
    (B64.with_prices B64.default [100; 101.2; 102.5; 103.9]%float) = Some bullish /\
  B64.detect_trend
    (B64.with_prices B64.default [100; 98.8; 97.5; 96.0]%float) = Some bearish /\
  B64.detect_trend
    (B64.with_prices B64.default [100; 101; 100.5; 101.5]%float) = None.
Proof.
  split; [exact b64_detect_trend_char|].
  split; [vm_compute; reflexivity|].
  split; vm_compute; reflexivity.
Qed.

Lemma detect_trend_binary64_witness :
  B64.detect_trend
    (B64.with_prices B64.default [100; 99; 98; 97; 96]%float) = Some bearish.
Proof.
  apply (proj1 (proj2 (proj2 (proj2 (proj1 detect_trend_binary64
           (B64.with_prices B64.default [100; 99; 98; 97; 96]%float)
           ltac:(vm_compute; discriminate)) ltac:(vm_compute; discriminate))))).
  split.
  - vm_compute. split; [reflexivity|]. split; [reflexivity|]. split; [reflexivity|].
    exact I.
  - vm_compute. intros [H _]. discriminate H.
Defined.

(** The products are the rounded ones.  Over the window
    [100.0, 100.1, 100.2, 100.2501] the numbers the four floats stand for
    rise by more than the number the strength 0.0005 stands for, pair by
    pair; the code finds 100.2 x (1 + 0.0005) equal to 100.2501 and returns
    none. *)
Lemma detect_trend_rounds_the_products :
  let s := B64.with_prices B64.default [100.0; 100.1; 100.2; 100.2501]%float in
  Spec.every_consecutive_pair
    (fun a b => a * (1 + B64.exact (B64.min_trend_strength s)) < b)
    (map B64.exact (B64.window s)) /\
  (100.2 * (1 + 0.0005) =? 100.2501)%float = true /\
  B64.detect_trend s = None.
Proof.
  cbv zeta. split.
  - vm_compute. repeat split.
  - split; vm_compute; reflexivity.
Qed.

(** ** open_position in binary64 *)

Lemma b64_open_position_true (side : Side) (price : float) (ts : Z) (s s' : B64.t) :
  B64.open_position side price ts s = (Returned true, s') ->
  B64.current_position s = None /\
  (B64.balance s <? B64.entry_fee s)%float = false /\
  (B64.leverage s =? 0)%float = false /\
  s' = B64.set_current_position
         (Some (B64.Position.Build side price (B64.position_size s)
                  (B64.leverage s) ts (B64.liquidation_price_at s price side)))
         (B64.set_total_fees_paid (B64.total_fees_paid s + B64.entry_fee s)%float
            (B64.set_balance (B64.balance s - B64.entry_fee s)%float s)).
Proof.
  intros H. rewrite b64_open_position_eq in H.
  destruct (B64.current_position s); [discriminate|].
  destruct (PrimFloat.ltb _ _); [discriminate|]. cbv zeta in H.
  destruct (PrimFloat.eqb _ _); [discriminate|].
  injection H as <-. auto.
Qed.

(** C3 (amended).  A successful [open_position(side, price, timestamp)]
    finds no position open, subtracts the entry fee
    position_size x leverage x trading_fee from the balance and adds it to
    the cumulative fees, and creates the position with liquidation price
    entry - entry / leverage x threshold for a long and entry + that
    distance for a short, each operation rounded to binary64; the ledger
    and the window are untouched.  Long at 100 with leverage 5 and threshold
    0.8 gives 84.0, short gives 116.0, and with the default configuration
    the balance strictly decreases, from 1000.0 to 999.5.  It does not on
    every successful open: a fee rate of 1e-20 gives a positive fee that
    leaves the balance of 1000.0 as it is. *)
Theorem open_position_binary64 :
  (forall (side : Side) (price : float) (ts : Z) (s s' : B64.t),
     B64.open_position side price ts s = (Returned true, s') ->
     B64.current_position s = None /\
     B64.balance s' = (B64.balance s - B64.entry_fee s)%float /\
     B64.total_fees_paid s' = (B64.total_fees_paid s + B64.entry_fee s)%float /\
     B64.current_position s' =
       Some (B64.Position.Build side price (B64.position_size s)
               (B64.leverage s) ts (B64.liquidation_price_at s price side)) /\
     B64.completed_trades s' = B64.completed_trades s /\
     B64.price_history s' = B64.price_history s) /\
  (exists pos s',
     B64.open_position long 100 0 B64.default = (Returned true, s') /\
     B64.current_position s' = Some pos /\
     B64.Position.liquidation_price pos = 84%float /\
     B64.balance B64.default = 1000%float /\
     B64.balance s' = 999.5%float /\
     B64.total_fees_paid s' = 0.5%float /\
     (B64.balance s' <? B64.balance B64.default)%float = true) /\
  (exists pos s',
     B64.open_position short 100 0 B64.default = (Returned true, s') /\
     B64.current_position s' = Some pos /\
     B64.Position.liquidation_price pos = 116%float /\
     B64.balance s' = 999.5%float /\
     (B64.balance s' <? B64.balance B64.default)%float = true) /\
  (let s := B64.set_trading_fee 1e-20 B64.default in
   exists s',
     B64.open_position long 100 0 s = (Returned true, s') /\
     (0 <? B64.entry_fee s)%float = true /\
     B64.balance s' = B64.balance s /\
     (B64.balance s' <? B64.balance s)%float = false).
Proof.
  split; [|split; [|split]].
  - intros side price ts s s' H.
    destruct (b64_open_position_true _ _ _ _ _ H) as (Hp & _ & _ & ->).
    split; [exact Hp|]. b64_fields. repeat split; reflexivity.
  - eexists. eexists. split; [vm_compute; reflexivity|].
    split; [reflexivity|]. split; [vm_compute; reflexivity|].
    split; [reflexivity|]. split; [vm_compute; reflexivity|].
    split; vm_compute; reflexivity.
  - eexists. eexists. split; [vm_compute; reflexivity|].
    split; [reflexivity|]. split; [vm_compute; reflexivity|].
    split; vm_compute; reflexivity.
  - cbv zeta. eexists. split; [vm_compute; reflexivity|].
    split; [vm_compute; reflexivity|]. split; vm_compute; reflexivity.
Qed.

Lemma open_position_binary64_witness :
  B64.balance (snd (B64.open_position short 250 7 B64.default))
  = (B64.balance B64.default - B64.entry_fee B64.default)%float.
Proof.
  apply (proj1 open_position_binary64 short 250%float 7%Z B64.default
           (snd (B64.open_position short 250 7 B64.default))).
  vm_compute. reflexivity.
Defined.

(** ** Failure in binary64 *)

Lemma b64_open_position_false (side : Side) (price : float) (ts : Z)
    (s s' : B64.t) :
  B64.open_position side price ts s = (Returned false, s') ->
  s' = s /\
  (B64.current_position s <> None \/
   (B64.balance s <? B64.entry_fee s)%float = true).
Proof.
  intros H. rewrite b64_open_position_eq in H.
  destruct (B64.current_position s).
  - injection H as <-. split; [reflexivity|]. left. discriminate.
  - destruct (PrimFloat.ltb _ _) eqn:Hb.
    + injection H as <-. split; [reflexivity|]. right. reflexivity.
    + cbv zeta in H. destruct (PrimFloat.eqb _ _); discriminate.
Qed.

Lemma b64_open_position_raised (side : Side) (price : float) (ts : Z)
    (s s' : B64.t) (e : exn) :
  B64.open_position side price ts s = (Raised e, s') ->
  e = ZeroDivisionError /\
  B64.current_position s = None /\
  (B64.balance s <? B64.entry_fee s)%float = false /\
  (B64.leverage s =? 0)%float = true /\
  s' = B64.set_total_fees_paid (B64.total_fees_paid s + B64.entry_fee s)%float
         (B64.set_balance (B64.balance s - B64.entry_fee s)%float s).
Proof.
  intros H. rewrite b64_open_position_eq in H.
  destruct (B64.current_position s); [discriminate|].
  destruct (PrimFloat.ltb _ _); [discriminate|]. cbv zeta in H.
  destruct (PrimFloat.eqb _ _); [|discriminate].
  injection H as <- <-. auto.
Qed.

Lemma b64_close_position_returns (price : float) (ts : Z) (reason : Reason)
    (s : B64.t) :
  exists r, fst (B64.close_position price ts reason s) = Returned r /\
            (r = None <-> B64.current_position s = None).
Proof.
  rewrite b64_close_position_eq.
  destruct (B64.current_position s); cbv zeta; cbn [fst]; eexists;
    (split; [reflexivity|]); split; intros; congruence.
Qed.

Lemma b64_check_liquidation_returns (price : float) (ts : Z) (s : B64.t) :
  exists r, fst (B64.check_liquidation price ts s) = Returned r.
Proof.
  rewrite b64_check_liquidation_eq.
  destruct (B64.current_position s) as [pos|] eqn:Hp; [|eexists; reflexivity].
  destruct (B64.Position.is_liquidated pos price); [|eexists; reflexivity].
  destruct (b64_close_position_returns price ts liquidation s) as (r & Hr & _).
  exists r. exact Hr.
Qed.

(** With a leverage of zero, no position open and a balance that is not
    below the fee, [open_position] passes both of its checks, charges the
    fee and raises [ZeroDivisionError] at [entry_price / self.leverage]: a
    failure that is not reported by the return value. *)
Lemma open_position_raises_at_zero_leverage :
  let s := B64.set_leverage 0 B64.default in
  B64.current_position s = None /\
  (B64.balance s <? B64.entry_fee s)%float = false /\
  fst (B64.open_position long 100 0 s) = Raised ZeroDivisionError /\
  fst (Strategy.open_position long 100 0 (Strategy.set_leverage 0 Strategy.default))
  = Raised ZeroDivisionError.
Proof.
  cbv zeta. split; [reflexivity|]. split; [vm_compute; reflexivity|].
  split; vm_compute; reflexivity.
Qed.

(** C5 (amended).  [open_position] returns false, with the state as it
    was, when a position is open or the balance is below the entry fee, and
    in no other case; [close_position] returns none, with the state as it
    was, when no position is open, and in no other case; a
    [check_liquidation] that returns none has changed nothing;
    [close_position] and [check_liquidation] never raise.  [open_position]
    raises in one case: no position open, a balance that is not below the
    fee, and a leverage of zero.  It then raises [ZeroDivisionError] after
    it has subtracted the fee from the balance and added it to the
    cumulative fees, and leaves no position and the ledger as it was. *)
Theorem failing_mutators
    (side : Side) (price : float) (ts : Z) (reason : Reason) (s : B64.t) :
  (B64.current_position s <> None ->
     B64.open_position side price ts s = (Returned false, s)) /\
  ((B64.balance s <? B64.entry_fee s)%float = true ->
     B64.open_position side price ts s = (Returned false, s)) /\
  (B64.current_position s = None ->
     B64.close_position price ts reason s = (Returned None, s)) /\
  (forall s', B64.open_position side price ts s = (Returned false, s') ->
     s' = s /\
     (B64.current_position s <> None \/
      (B64.balance s <? B64.entry_fee s)%float = true)) /\
  (forall s', B64.close_position price ts reason s = (Returned None, s') ->
     s' = s /\ B64.current_position s = None) /\
  (forall s', B64.check_liquidation price ts s = (Returned None, s') -> s' = s) /\
  (exists r, fst (B64.close_position price ts reason s) = Returned r) /\
  (exists r, fst (B64.check_liquidation price ts s) = Returned r) /\
  (B64.current_position s = None ->
   (B64.balance s <? B64.entry_fee s)%float = false ->
   (B64.leverage s =? 0)%float = true ->
     B64.open_position side price ts s =
     (Raised ZeroDivisionError,
      B64.set_total_fees_paid (B64.total_fees_paid s + B64.entry_fee s)%float
        (B64.set_balance (B64.balance s - B64.entry_fee s)%float s))) /\
  (forall e s', B64.open_position side price ts s = (Raised e, s') ->
     e = ZeroDivisionError /\
     B64.current_position s = None /\
     (B64.balance s <? B64.entry_fee s)%float = false /\
     (B64.leverage s =? 0)%float = true /\
     B64.current_position s' = None /\
     B64.completed_trades s' = B64.completed_trades s /\
     B64.balance s' = (B64.balance s - B64.entry_fee s)%float /\
     B64.total_fees_paid s' = (B64.total_fees_paid s + B64.entry_fee s)%float).
Proof.
  split; [|split; [|split; [|split; [|split; [|split; [|split; [|split; [|split]]]]]]]].
  - intros Hp. rewrite b64_open_position_eq.
    destruct (B64.current_position s); [reflexivity | congruence].
  - intros Hb. rewrite b64_open_position_eq.
    destruct (B64.current_position s); [reflexivity|].
    rewrite Hb. reflexivity.
  - intros Hp. rewrite b64_close_position_eq, Hp. reflexivity.
  - intros s'. apply b64_open_position_false.
  - intros s' H. rewrite b64_close_position_eq in H.
    destruct (B64.current_position s); [discriminate|].
    injection H as <-. auto.
  - intros s' H. rewrite b64_check_liquidation_eq in H.
    destruct (B64.current_position s) as [pos|] eqn:Hp; [|congruence].
    destruct (B64.Position.is_liquidated pos price); [|congruence].
    rewrite b64_close_position_eq, Hp in H. discriminate.
  - destruct (b64_close_position_returns price ts reason s) as (r & Hr & _).
    exists r. exact Hr.
  - apply b64_check_liquidation_returns.
  - intros Hp Hb Hz. rewrite b64_open_position_eq, Hp, Hb. cbv zeta.
    rewrite Hz. reflexivity.
  - intros e s' H.
    destruct (b64_open_position_raised _ _ _ _ _ _ H) as (He & Hp & Hb & Hz & ->).
    b64_fields. auto 10.
Qed.

Lemma failing_mutators_witness :
  let held := snd (B64.open_position long 100 0 B64.default) in
  let poor := B64.set_balance 0.1 B64.default in
  let flat := B64.set_leverage 0 B64.default in
  B64.open_position short 101 1 held = (Returned false, held) /\
  B64.open_position long 100 0 poor = (Returned false, poor) /\
  B64.close_position 100 0 manual B64.default = (Returned None, B64.default) /\
  fst (B64.open_position long 100 0 flat) = Raised ZeroDivisionError.
Proof.
  cbv zeta. split; [|split; [|split]].
  - apply (proj1 (failing_mutators short 101%float 1%Z manual
                    (snd (B64.open_position long 100 0 B64.default)))).
    vm_compute. discriminate.
  - apply (proj1 (proj2 (failing_mutators long 100%float 0%Z manual
                           (B64.set_balance 0.1 B64.default)))).
    vm_compute. reflexivity.
  - apply (proj1 (proj2 (proj2 (failing_mutators long 100%float 0%Z manual
                                  B64.default)))).
    reflexivity.
  - rewrite (proj1 (proj2 (proj2 (proj2 (proj2 (proj2 (proj2 (proj2 (proj2
               (failing_mutators long 100%float 0%Z manual
                  (B64.set_leverage 0 B64.default)))))))))));
      [reflexivity | reflexivity | vm_compute; reflexivity | vm_compute; reflexivity].
Defined.

(** ** The fee of a close in binary64 *)

Lemma b64_update_strategy_params_eq
    (lev ps : option float) (lb : option Z) (m : option float) (s : B64.t) :
  B64.update_strategy_params lev ps lb m s =
  (Returned tt,
   let s1 := match lev with Some v => B64.set_leverage v s | None => s end in
   let s2 := match ps with Some v => B64.set_position_size v s1 | None => s1 end in
   let s3 := match lb with Some v => B64.set_lookback_periods v s2 | None => s2 end in
   match m with Some v => B64.set_min_trend_strength v s3 | None => s3 end).
Proof. destruct lev, ps, lb, m; reflexivity. Qed.

(** C10 (amended).  [close_position] charges the exit fee
    position.size x the engine's current leverage x trading_fee, while the
    gross PnL uses the leverage stored in the position.  So when
    [update_strategy_params] sets another leverage while a position is open,
    the fee added at the close is size x new leverage x trading_fee, where
    the fee added at the open was size x old leverage x trading_fee, and the
    trade keeps the old leverage: with the default configuration and the
    leverage changed from 5 to 10 the entry fee is 0.5 and the exit fee
    1.0. *)
Theorem exit_fee_uses_current_leverage :
  (forall (price : float) (ts : Z) (reason : Reason) (s : B64.t)
          (pos : B64.Position.t),
     B64.current_position s = Some pos ->
     exists trade s',
       B64.close_position price ts reason s = (Returned (Some trade), s') /\
       let fee := (B64.Position.size pos * B64.leverage s * B64.trading_fee s)%float in
       let gross :=
         match B64.Position.side pos with
         | long => ((price - B64.Position.entry_price pos)
                    * B64.Position.size pos * B64.Position.leverage pos)%float
         | short => ((B64.Position.entry_price pos - price)
                     * B64.Position.size pos * B64.Position.leverage pos)%float
         end in
       B64.total_fees_paid s' = (B64.total_fees_paid s + fee)%float /\
       B64.Trade.pnl trade = (gross - fee)%float /\
       B64.Trade.leverage trade = B64.Position.leverage pos /\
       B64.balance s' = (B64.balance s - fee + B64.Trade.pnl trade)%float) /\
  (forall (side : Side) (p0 p1 : float) (t0 t1 : Z) (reason : Reason)
          (s0 s1 : B64.t)
          (lev' : float) (ps' : option float) (lb' : option Z) (m' : option float),
     B64.open_position side p0 t0 s0 = (Returned true, s1) ->
     let s2 := snd (B64.update_strategy_params (Some lev') ps' lb' m' s1) in
     let s3 := snd (B64.close_position p1 t1 reason s2) in
     let entry_fee :=
       (B64.position_size s0 * B64.leverage s0 * B64.trading_fee s0)%float in
     let exit_fee :=
       (B64.position_size s0 * lev' * B64.trading_fee s0)%float in
     B64.total_fees_paid s1 = (B64.total_fees_paid s0 + entry_fee)%float /\
     B64.total_fees_paid s2 = B64.total_fees_paid s1 /\
     B64.total_fees_paid s3 = (B64.total_fees_paid s1 + exit_fee)%float /\
     exists trade,
       B64.completed_trades s3 = B64.completed_trades s0 ++ [trade] /\
       B64.Trade.leverage trade = B64.leverage s0 /\
       B64.Trade.pnl trade =
         (match side with
          | long => (p1 - p0) * B64.position_size s0 * B64.leverage s0
          | short => (p0 - p1) * B64.position_size s0 * B64.leverage s0
          end - exit_fee)%float) /\
  (let s1 := snd (B64.open_position long 100 0 B64.default) in
   let s2 := snd (B64.update_strategy_params (Some 10%float) None None None s1) in
   let s3 := snd (B64.close_position 110 1 trend_reversal s2) in
   (B64.position_size B64.default * 5 * B64.trading_fee B64.default)%float
   = 0.5%float /\
   (B64.position_size B64.default * 10 * B64.trading_fee B64.default)%float
   = 1%float /\
   B64.total_fees_paid s1 = 0.5%float /\
   B64.total_fees_paid s3 = 1.5%float /\
   map B64.Trade.pnl (B64.completed_trades s3) = [4999%float]).
Proof.
  split; [|split].
  - intros price ts reason s pos Hp. rewrite b64_close_position_eq, Hp. cbv zeta.
    eexists. eexists. split; [reflexivity|]. b64_fields.
    cbn [B64.Trade.pnl B64.Trade.leverage]. unfold B64.Position.calculate_pnl.
    split; [reflexivity|]. split; [destruct (B64.Position.side pos); reflexivity|].
    split; reflexivity.
  - intros side p0 p1 t0 t1 reason s0 s1 lev' ps' lb' m' Ho.
    destruct (b64_open_position_true _ _ _ _ _ Ho) as (Hp & _ & _ & ->).
    rewrite b64_update_strategy_params_eq. cbn [snd].
    rewrite b64_close_position_eq.
    unfold B64.entry_fee.
    destruct ps', lb', m'; cbv zeta; b64_fields; cbn [snd]; b64_fields;
      (split; [reflexivity|]); (split; [reflexivity|]); (split; [reflexivity|]);
      eexists; (split; [reflexivity|]);
      cbn [B64.Trade.pnl B64.Trade.leverage B64.Position.leverage];
      (split; [reflexivity|]);
      unfold B64.Position.calculate_pnl;
      cbn [B64.Position.side B64.Position.entry_price B64.Position.size
           B64.Position.leverage];
      destruct side; reflexivity.
  - cbv zeta. split; [vm_compute; reflexivity|]. split; [vm_compute; reflexivity|].
    split; [vm_compute; reflexivity|]. split; vm_compute; reflexivity.
Qed.

Lemma exit_fee_uses_current_leverage_witness :
  let s0 := B64.default in
  let s1 := snd (B64.open_position short 100 0 s0) in
  let s2 := snd (B64.update_strategy_params (Some 5.5%float) None None None s1) in
  let s3 := snd (B64.close_position 90 1 manual s2) in
  B64.total_fees_paid s1 = (0 + 100 * 5 * 0.001)%float /\
  B64.total_fees_paid s3 = (B64.total_fees_paid s1 + 100 * 5.5 * 0.001)%float.
Proof.
  cbv zeta.
  destruct (proj1 (proj2 exit_fee_uses_current_leverage)
              short 100%float 90%float 0%Z 1%Z manual B64.default
              (snd (B64.open_position short 100 0 B64.default))
              5.5%float None None None
              ltac:(vm_compute; reflexivity)) as (H1 & _ & H3 & _).
  split; [exact H1 | exact H3].
Defined.

(** ** The balance in binary64 *)

(** After the eleven ticks below, run on a fresh engine with the default
    configuration (a long opened at 100.9 and closed at 100.2, a short
    opened at 99.9 and closed at 100.5), the balance is
    347.00000000000148 while 1000 - total_fees_paid + the sum of the
    [trade.pnl] is 347.00000000000136: the two differ as floats, and the
    numbers they stand for differ. *)
Lemma balance_equation_fails_in_binary64 :
  let s :=
    B64.run
      (B64.ticks [100.2; 100.5; 100.8; 100.9; 100.6; 100.3; 100.2; 99.9;
                  100.1; 100.2; 100.5]%float)
      B64.default in
  B64.balance s = 347.00000000000148%float /\
  B64.total_fees_paid s = 2%float /\
  map B64.Trade.pnl (B64.completed_trades s)
  = [(-350.50000000000142)%float; (-300.49999999999716)%float] /\
  (1000 - B64.total_fees_paid s + B64.get_total_realized_pnl s)%float
  = 347.00000000000136%float /\
  (B64.balance s =? 1000 - B64.total_fees_paid s + B64.get_total_realized_pnl s)%float
  = false /\
  ~ B64.exact (B64.balance s)
    == 1000 - B64.exact (B64.total_fees_paid s)
       + B64.exact_total (map B64.Trade.pnl (B64.completed_trades s)).
Proof.
  cbv zeta. split; [vm_compute; reflexivity|]. split; [vm_compute; reflexivity|].
  split; [vm_compute; reflexivity|]. split; [vm_compute; reflexivity|].
  split; [vm_compute; reflexivity|]. vm_compute. discriminate.
Qed.

Lemma b64_open_position_moves (side : Side) (price : float) (ts : Z) (s : B64.t) :
  let s' := snd (B64.open_position side price ts s) in
  B64.money_unmoved s s' \/ B64.entry_charged s s'.
Proof.
  cbv zeta. rewrite b64_open_position_eq.
  destruct (B64.current_position s) eqn:Hp.
  - left. cbn [snd]. unfold B64.money_unmoved. auto.
  - destruct (PrimFloat.ltb _ _).
    + left. cbn [snd]. unfold B64.money_unmoved. auto.
    + right. cbv zeta. unfold B64.entry_charged.
      destruct (PrimFloat.eqb (B64.leverage s) 0) eqn:Hz; cbn [snd]; b64_fields.
      * auto 10.
      * split; [exact Hp|]. split; [reflexivity|]. split; [reflexivity|].
        split; [reflexivity|]. discriminate.
Qed.

Lemma b64_close_position_moves (price : float) (ts : Z) (reason : Reason) (s : B64.t) :
  let s' := snd (B64.close_position price ts reason s) in
  B64.money_unmoved s s' \/ B64.trade_booked s s'.
Proof.
  cbv zeta. rewrite b64_close_position_eq.
  destruct (B64.current_position s) as [pos|] eqn:Hp.
  - right. cbv zeta. cbn [snd]. unfold B64.trade_booked.
    eexists. eexists. split; [exact Hp|]. b64_fields.
    split; [reflexivity|]. split; [reflexivity|]. cbv zeta.
    cbn [B64.Trade.pnl B64.Trade.exit_price]. auto.
  - left. cbn [snd]. unfold B64.money_unmoved. auto.
Qed.

Lemma b64_check_liquidation_moves (price : float) (ts : Z) (s : B64.t) :
  let s' := snd (B64.check_liquidation price ts s) in
  B64.money_unmoved s s' \/ B64.trade_booked s s'.
Proof.
  cbv zeta. rewrite b64_check_liquidation_eq.
  destruct (B64.current_position s) as [pos|] eqn:Hp.
  - destruct (B64.Position.is_liquidated pos price).
    + apply b64_close_position_moves.
    + left. cbn [snd]. unfold B64.money_unmoved. auto.
  - left. cbn [snd]. unfold B64.money_unmoved. auto.
Qed.

Lemma b64_after_add_price_moves (ts : Z) (price : float) (s1 : B64.t) :
  let s' := snd (B64.after_add_price ts price s1) in
  B64.money_unmoved s1 s' \/ B64.entry_charged s1 s' \/ B64.trade_booked s1 s'.
Proof.
  cbv zeta. unfold B64.after_add_price.
  assert (Hsame : B64.money_unmoved s1 s1) by (unfold B64.money_unmoved; auto).
  destruct (B64.current_position s1) as [pos|] eqn:Hp.
  - destruct (B64.Position.is_liquidated pos price).
    + cbn [snd].
      destruct (b64_close_position_moves price ts liquidation s1); auto.
    + destruct (_ || _); cbn [snd]; [|auto].
      destruct (b64_close_position_moves price ts trend_reversal s1); auto.
  - destruct (B64.detect_trend s1) as [[|]|]; [| |cbn [snd]; auto].
    + pose proof (b64_open_position_moves long price ts s1) as H. cbv zeta in H.
      destruct (B64.open_position long price ts s1) as [[[|]|e] s2];
        cbn [snd] in *; destruct H; auto.
    + pose proof (b64_open_position_moves short price ts s1) as H. cbv zeta in H.
      destruct (B64.open_position short price ts s1) as [[[|]|e] s2];
        cbn [snd] in *; destruct H; auto.
Qed.

Lemma b64_step_moves (s : B64.t) (o : B64.Op) :
  B64.money_unmoved s (B64.step s o)
  \/ B64.entry_charged s (B64.step s o)
  \/ B64.trade_booked s (B64.step s o).
Proof.
  destruct o; unfold B64.step.
  - rewrite b64_process_price_update_eq, b64_add_price_eq. cbn [snd].
    set (s1 := B64.set_price_history _ s).
    destruct (b64_after_add_price_moves timestamp price s1) as [H|[H|H]].
    + left. exact H.
    + right. left. exact H.
    + right. right. exact H.
  - destruct (b64_open_position_moves side price timestamp s); auto.
  - destruct (b64_close_position_moves price timestamp reason s); auto.
  - destruct (b64_check_liquidation_moves price timestamp s); auto.
Qed.

(** C1 (amended).  Whatever the state, each engine operation (a tick, an
    open, a close with any reason, a liquidation check) does one of three
    things to the money.  It leaves the position, the balance, the
    cumulative fees and the ledger as they were.  Or, no position being
    open, it subtracts the entry fee from the balance and adds it to the
    cumulative fees, the ledger staying as it was.  Or, a position being
    open, it subtracts the exit fee from the balance, adds it to the
    cumulative fees, appends one trade whose [pnl] is the gross PnL minus
    that fee, adds that [pnl] to the balance, and leaves no position.  Each
    subtraction and addition is the binary64 one.  In particular an
    operation that finds a position open and leaves one open has moved
    nothing, whatever the price: the unrealized PnL never reaches the
    balance. *)
Theorem balance_moves_at_open_and_close :
  (forall (s : B64.t) (o : B64.Op),
     B64.money_unmoved s (B64.step s o)
     \/ B64.entry_charged s (B64.step s o)
     \/ B64.trade_booked s (B64.step s o)) /\
  (forall (s : B64.t) (o : B64.Op),
     B64.current_position s <> None ->
     B64.current_position (B64.step s o) <> None ->
     B64.current_position (B64.step s o) = B64.current_position s /\
     B64.balance (B64.step s o) = B64.balance s /\
     B64.total_fees_paid (B64.step s o) = B64.total_fees_paid s /\
     B64.completed_trades (B64.step s o) = B64.completed_trades s).
Proof.
  split; [exact b64_step_moves|].
  intros s o Hb Ha.
  destruct (b64_step_moves s o) as [H|[H|H]].
  - exact H.
  - destruct H as (Hn & _). congruence.
  - destruct H as (pos & trade & _ & Hn & _). congruence.
Qed.

(** A long opened at 100 with the default configuration, then a tick at
    130: the position stays open and the balance is still 999.5. *)
Lemma balance_moves_at_open_and_close_witness :
  let s := snd (B64.open_position long 100 0 B64.default) in
  B64.balance (B64.step s (B64.Tick 1 130)) = B64.balance s /\
  B64.balance s = 999.5%float.
Proof.
  cbv zeta. split; [|vm_compute; reflexivity].
  apply (proj2 balance_moves_at_open_and_close
           (snd (B64.open_position long 100 0 B64.default))
           (B64.Tick 1 130)).
  - vm_compute. discriminate.
  - vm_compute. discriminate.
Defined.
